(** * egl::Surface lifetime and WebCore::FetchOptions coding

    A shallow embedding of

    - [Source/ThirdParty/ANGLE/src/libANGLE/Surface.cpp]: the EGL surface
      shim (attribute parsing in the constructor, the current-count /
      deferred-destruction state machine, texture binding, size queries);
    - [Source/WebCore/loader/FetchOptions.h]: [FetchOptions::encode] and
      [FetchOptions::decode].

    Stateful code is written in a small state-and-fault monad over a
    [World]; calls into collaborators whose code lives elsewhere (the
    rx::SurfaceImpl backend, gl::Texture, gl::Framebuffer) are logged in
    an event trace so that their relative order can be stated. *)

From Stdlib Require Import ZArith List Bool Lia String Ascii.
From stdpp Require Import base option gmap.
Import ListNotations.

Local Open Scope Z_scope.

(** ** Fixed-width integers

    C++ integral conversions between the typedefs used by the source:
    [EGLint] is a signed 32-bit integer, [EGLenum] an unsigned 32-bit
    integer, [size_t] and [EGLAttrib] (= [intptr_t]) have the width of a
    pointer, which is left as a parameter of the development. *)

Definition wrap_unsigned (bits x : Z) : Z := x mod 2 ^ bits.

Definition wrap_signed (bits x : Z) : Z :=
  (x + 2 ^ (bits - 1)) mod 2 ^ bits - 2 ^ (bits - 1).

Definition in_signed (bits x : Z) : Prop :=
  - 2 ^ (bits - 1) <= x < 2 ^ (bits - 1).

Definition EGLint := Z.
Definition EGLenum := Z.
Definition EGLAttrib := Z.

Definition to_EGLint (x : Z) : EGLint := wrap_signed 32 x.
Definition to_EGLenum (x : Z) : EGLenum := wrap_unsigned 32 x.
Definition is_EGLint (x : Z) : Prop := in_signed 32 x.

(** A C++ [bool] converted to an integer. *)
Definition bool_to_int (b : bool) : Z := if b then 1 else 0.

(** An integer used as a condition. *)
Definition int_to_bool (x : Z) : bool := negb (x =? 0).

(** A pointer used as a condition. *)
Definition non_null {A : Type} (p : option A) : bool :=
  match p with
  | Some _ => true
  | None => false
  end.

(** ** EGL constants (values of the Khronos and ANGLE headers) *)

Module EGL.
Definition FALSE : Z := 0.
Definition TRUE : Z := 1.
Definition SUCCESS : Z := 0x3000.
Definition PBUFFER_BIT : Z := 0x0001.
Definition PIXMAP_BIT : Z := 0x0002.
Definition WINDOW_BIT : Z := 0x0004.
Definition NONE : Z := 0x3038.
Definition HEIGHT : Z := 0x3056.
Definition WIDTH : Z := 0x3057.
Definition NO_TEXTURE : Z := 0x305C.
Definition TEXTURE_FORMAT : Z := 0x3080.
Definition TEXTURE_TARGET : Z := 0x3081.
Definition BACK_BUFFER : Z := 0x3084.
Definition POST_SUB_BUFFER_SUPPORTED_NV : Z := 0x30BE.
Definition FIXED_SIZE_ANGLE : Z := 0x3201.
Definition DIRECT_COMPOSITION_ANGLE : Z := 0x33A5.
Definition FLEXIBLE_SURFACE_COMPATIBILITY_SUPPORTED_ANGLE : Z := 0x33A6.
Definition SURFACE_ORIENTATION_ANGLE : Z := 0x33A8.
Definition DISPLAY_SCALING : Z := 10000.
End EGL.

(** ** Collaborators of egl::Surface *)

(** [egl::AttributeMap]: a [std::map<EGLAttrib, EGLAttrib>]; [get] returns
    the stored value, or the supplied default when the key is absent. *)
Definition AttributeMap_get (attributes : gmap Z Z) (key defaultValue : EGLAttrib)
  : EGLAttrib :=
  match attributes !! key with
  | Some v => v
  | None => defaultValue
  end.

(** [egl::Error]: a status code; anything but [EGL_SUCCESS] is an error. *)
Record Error : Type := mkError { getCode : EGLint }.

Definition isError (e : Error) : bool := negb (getCode e =? EGL.SUCCESS).

(** The fields of [egl::Config] the surface reads. *)
Record Config : Type := mkConfig {
  renderTargetFormat : Z;
  depthStencilFormat : Z;
  samples : Z
}.

(** Handles for objects owned elsewhere. *)
Definition Texture := positive.
Definition Display := nat.

(** The object made by [new gl::Framebuffer(this)]. *)
Inductive Framebuffer : Type := DefaultFramebuffer.

(** [rx::SurfaceImpl]: the platform backend, an interface.  A backend is a
    value of some state type [I]; a call returns its result together with
    the backend's next state. *)
Class SurfaceImpl (I : Type) : Type := {
  impl_initialize : Display -> I -> Error * I;
  impl_destroy : Display -> I -> I;
  impl_getSwapBehavior : I -> EGLint;
  impl_isPostSubBufferSupported : I -> EGLint;
  impl_getWidth : I -> EGLint;
  impl_getHeight : I -> EGLint;
  impl_bindTexImage : Texture -> EGLint -> I -> Error * I;
  impl_releaseTexImage : EGLint -> I -> Error * I
}.

(** [rx::EGLImplFactory]: makes the backend that fits the surface kind. *)
Class EGLImplFactory (I : Type) : Type := {
  createWindowSurface : Config -> Z -> gmap Z Z -> I;
  createPbufferSurface : Config -> gmap Z Z -> I;
  createPbufferFromClientBuffer : Config -> EGLenum -> Z -> gmap Z Z -> I;
  createPixmapSurface : Config -> Z -> gmap Z Z -> I
}.

(** Calls that leave the Surface, in the order they are made. *)
Inductive Event : Type :=
| EvImplInitialize (d : Display)
| EvImplDestroy (d : Display)
| EvImplBindTexImage (t : Texture) (buffer : EGLint)
| EvImplReleaseTexImage (buffer : EGLint)
| EvTextureBindTexImageFromSurface (t : Texture)
| EvTextureReleaseTexImageFromSurface (t : Texture)
| EvFramebufferDestroyDefault (d : Display)
| EvDeleteFramebuffer
| EvDeleteImplementation
| EvSurfaceFreed.

#[global] Instance Event_eq_dec : EqDecision Event.
Proof. solve_decision. Defined.

Section Surface.

(** Width in bits of [size_t] and [EGLAttrib]. *)
Variable ptr_bits : Z.

Context {I : Type} `{SurfaceImpl I}.

Definition to_size_t (x : Z) : Z := wrap_unsigned ptr_bits x.

(** *** The object *)

(** Data members of [egl::Surface]; a null pointer is [None].  The
    current count is declared in Surface.h, which is not part of the
    sources at hand: it is taken as a mathematical integer. *)
Record Surface : Type := mkSurface {
  mState_defaultFramebuffer : option Framebuffer;
  mState_config : Config;
  mImplementation : option I;
  mCurrentCount : Z;
  mDestroyed : bool;
  mType : EGLint;
  mPostSubBufferRequested : bool;
  mFlexibleSurfaceCompatibilityRequested : bool;
  mDirectComposition : bool;
  mFixedSize : bool;
  mFixedWidth : Z;
  mFixedHeight : Z;
  mTextureFormat : EGLenum;
  mTextureTarget : EGLenum;
  mPixelAspectRatio : EGLint;
  mRenderBuffer : EGLenum;
  mSwapBehavior : EGLenum;
  mOrientation : EGLint;
  mTexture : option Texture;
  mBackFormat : Z;
  mDSFormat : Z
}.

(** Assignments to the members that change after construction. *)
Definition set_defaultFramebuffer (v : option Framebuffer) (s : Surface) : Surface :=
  mkSurface v (mState_config s) (mImplementation s) (mCurrentCount s)
    (mDestroyed s) (mType s) (mPostSubBufferRequested s)
    (mFlexibleSurfaceCompatibilityRequested s) (mDirectComposition s)
    (mFixedSize s) (mFixedWidth s) (mFixedHeight s) (mTextureFormat s)
    (mTextureTarget s) (mPixelAspectRatio s) (mRenderBuffer s)
    (mSwapBehavior s) (mOrientation s) (mTexture s) (mBackFormat s) (mDSFormat s).

Definition set_mImplementation (v : option I) (s : Surface) : Surface :=
  mkSurface (mState_defaultFramebuffer s) (mState_config s) v (mCurrentCount s)
    (mDestroyed s) (mType s) (mPostSubBufferRequested s)
    (mFlexibleSurfaceCompatibilityRequested s) (mDirectComposition s)
    (mFixedSize s) (mFixedWidth s) (mFixedHeight s) (mTextureFormat s)
    (mTextureTarget s) (mPixelAspectRatio s) (mRenderBuffer s)
    (mSwapBehavior s) (mOrientation s) (mTexture s) (mBackFormat s) (mDSFormat s).

Definition set_mCurrentCount (v : Z) (s : Surface) : Surface :=
  mkSurface (mState_defaultFramebuffer s) (mState_config s) (mImplementation s) v
    (mDestroyed s) (mType s) (mPostSubBufferRequested s)
    (mFlexibleSurfaceCompatibilityRequested s) (mDirectComposition s)
    (mFixedSize s) (mFixedWidth s) (mFixedHeight s) (mTextureFormat s)
    (mTextureTarget s) (mPixelAspectRatio s) (mRenderBuffer s)
    (mSwapBehavior s) (mOrientation s) (mTexture s) (mBackFormat s) (mDSFormat s).

Definition set_mDestroyed (v : bool) (s : Surface) : Surface :=
  mkSurface (mState_defaultFramebuffer s) (mState_config s) (mImplementation s)
    (mCurrentCount s) v (mType s) (mPostSubBufferRequested s)
    (mFlexibleSurfaceCompatibilityRequested s) (mDirectComposition s)
    (mFixedSize s) (mFixedWidth s) (mFixedHeight s) (mTextureFormat s)
    (mTextureTarget s) (mPixelAspectRatio s) (mRenderBuffer s)
    (mSwapBehavior s) (mOrientation s) (mTexture s) (mBackFormat s) (mDSFormat s).

Definition set_mSwapBehavior (v : EGLenum) (s : Surface) : Surface :=
  mkSurface (mState_defaultFramebuffer s) (mState_config s) (mImplementation s)
    (mCurrentCount s) (mDestroyed s) (mType s) (mPostSubBufferRequested s)
    (mFlexibleSurfaceCompatibilityRequested s) (mDirectComposition s)
    (mFixedSize s) (mFixedWidth s) (mFixedHeight s) (mTextureFormat s)
    (mTextureTarget s) (mPixelAspectRatio s) (mRenderBuffer s)
    v (mOrientation s) (mTexture s) (mBackFormat s) (mDSFormat s).

Definition set_mTexture (v : option Texture) (s : Surface) : Surface :=
  mkSurface (mState_defaultFramebuffer s) (mState_config s) (mImplementation s)
    (mCurrentCount s) (mDestroyed s) (mType s) (mPostSubBufferRequested s)
    (mFlexibleSurfaceCompatibilityRequested s) (mDirectComposition s)
    (mFixedSize s) (mFixedWidth s) (mFixedHeight s) (mTextureFormat s)
    (mTextureTarget s) (mPixelAspectRatio s) (mRenderBuffer s)
    (mSwapBehavior s) (mOrientation s) v (mBackFormat s) (mDSFormat s).

(** *** Construction *)

(** [Surface::Surface(surfaceType, config, attributes)].  Each member
    gets the value the constructor body assigns to it, or else the value
    of its member initialiser (the [else] branches of the guarded
    assignments). *)
Definition Surface_ctor (surfaceType : EGLint) (config : Config)
    (attributes : gmap Z Z) : Surface :=
  let fixedSize :=
    AttributeMap_get attributes EGL.FIXED_SIZE_ANGLE EGL.FALSE =? EGL.TRUE in
  let notWindow := negb (surfaceType =? EGL.WINDOW_BIT) in
  {| mState_defaultFramebuffer := None;
     mState_config := config;
     mImplementation := None;
     mCurrentCount := 0;
     mDestroyed := false;
     mType := surfaceType;
     mPostSubBufferRequested :=
       AttributeMap_get attributes EGL.POST_SUB_BUFFER_SUPPORTED_NV EGL.FALSE
         =? EGL.TRUE;
     mFlexibleSurfaceCompatibilityRequested :=
       AttributeMap_get attributes
         EGL.FLEXIBLE_SURFACE_COMPATIBILITY_SUPPORTED_ANGLE EGL.FALSE =? EGL.TRUE;
     mDirectComposition :=
       AttributeMap_get attributes EGL.DIRECT_COMPOSITION_ANGLE EGL.FALSE
         =? EGL.TRUE;
     mFixedSize := fixedSize;
     mFixedWidth :=
       if fixedSize then to_size_t (AttributeMap_get attributes EGL.WIDTH 0)
       else 0;
     mFixedHeight :=
       if fixedSize then to_size_t (AttributeMap_get attributes EGL.HEIGHT 0)
       else 0;
     mTextureFormat :=
       if notWindow
       then to_EGLenum
              (AttributeMap_get attributes EGL.TEXTURE_FORMAT EGL.NO_TEXTURE)
       else EGL.NO_TEXTURE;
     mTextureTarget :=
       if notWindow
       then to_EGLenum
              (AttributeMap_get attributes EGL.TEXTURE_TARGET EGL.NO_TEXTURE)
       else EGL.NO_TEXTURE;
     mPixelAspectRatio := to_EGLint (1 * EGL.DISPLAY_SCALING);
     mRenderBuffer := EGL.BACK_BUFFER;
     mSwapBehavior := EGL.NONE;
     mOrientation :=
       to_EGLint (AttributeMap_get attributes EGL.SURFACE_ORIENTATION_ANGLE 0);
     mTexture := None;
     mBackFormat := renderTargetFormat config;
     mDSFormat := depthStencilFormat config |}.

(** The subclasses fix the kind and obtain the backend from the factory. *)
Definition WindowSurface_ctor `{EGLImplFactory I} (config : Config)
    (window : Z) (attribs : gmap Z Z) : Surface :=
  set_mImplementation (Some (createWindowSurface config window attribs))
    (Surface_ctor EGL.WINDOW_BIT config attribs).

Definition PbufferSurface_ctor `{EGLImplFactory I} (config : Config)
    (attribs : gmap Z Z) : Surface :=
  set_mImplementation (Some (createPbufferSurface config attribs))
    (Surface_ctor EGL.PBUFFER_BIT config attribs).

Definition PbufferSurface_ctor_clientBuffer `{EGLImplFactory I} (config : Config)
    (buftype : EGLenum) (clientBuffer : Z) (attribs : gmap Z Z) : Surface :=
  set_mImplementation
    (Some (createPbufferFromClientBuffer config buftype clientBuffer attribs))
    (Surface_ctor EGL.PBUFFER_BIT config attribs).

Definition PixmapSurface_ctor `{EGLImplFactory I} (config : Config)
    (nativePixmap : Z) (attribs : gmap Z Z) : Surface :=
  set_mImplementation (Some (createPixmapSurface config nativePixmap attribs))
    (Surface_ctor EGL.PIXMAP_BIT config attribs).

(** *** Worlds and the fault monad *)

(** What a member function can see and change: the members of [*this],
    whether the object still exists, which textures currently hold a
    back-reference to this surface, and the calls made so far. *)
Record World : Type := mkWorld {
  surface : Surface;
  alive : bool;
  sourced : gset Texture;
  trace : list Event
}.

Definition new_world (s : Surface) : World :=
  {| surface := s; alive := true; sourced := ∅; trace := [] |}.

Inductive Fault : Type :=
| AssertionFailure
| NullDereference
| UseAfterFree.

(** A call either returns, or stops at a fault; both carry the world
    reached. *)
Inductive Outcome (A : Type) : Type :=
| Done (a : A) (w : World)
| Crash (f : Fault) (w : World).
Arguments Done {A} a w.
Arguments Crash {A} f w.

Definition final {A} (o : Outcome A) : World :=
  match o with
  | Done _ w => w
  | Crash _ w => w
  end.

Definition M (A : Type) : Type := World -> Outcome A.

#[global] Instance M_ret : MRet M := fun A a w => Done a w.

#[global] Instance M_bind : MBind M := fun A B k c w =>
  match c w with
  | Done a w' => k a w'
  | Crash f w' => Crash f w'
  end.

Definition crash {A} (f : Fault) : M A := fun w => Crash f w.

(** Reading or writing a member needs the object to exist. *)
Definition this : M Surface := fun w =>
  if alive w then Done (surface w) w else Crash UseAfterFree w.

Definition modify (f : Surface -> Surface) : M unit := fun w =>
  if alive w
  then Done tt (mkWorld (f (surface w)) (alive w) (sourced w) (trace w))
  else Crash UseAfterFree w.

Definition emit (e : Event) : M unit := fun w =>
  Done tt (mkWorld (surface w) (alive w) (sourced w) (trace w ++ [e])).

Definition modify_sourced (f : gset Texture -> gset Texture) : M unit := fun w =>
  Done tt (mkWorld (surface w) (alive w) (f (sourced w)) (trace w)).

(** The storage of [*this] is given back. *)
Definition free_this : M unit := fun w =>
  Done tt (mkWorld (surface w) false (sourced w) (trace w ++ [EvSurfaceFreed])).

(** Modelled from the spec: the ASSERT macro (common/debug.h) is not among
    the sources; the specification treats a failed assertion as a fatal
    contract violation, so a false condition stops the call. *)
Definition ASSERT (c : bool) : M unit := fun w =>
  if c then Done tt w else Crash AssertionFailure w.

(** [mImplementation->f(...)]: dereference the pointer, log the call, keep
    the backend's next state. *)
Definition call_impl {A} (e : Event) (f : I -> A * I) : M A :=
  s ← this;
  match mImplementation s with
  | None => crash NullDereference
  | Some i =>
      emit e;;
      modify (set_mImplementation (Some (snd (f i))));;
      mret (fst (f i))
  end.

(** Modelled from the spec: Texture.cpp is not among the sources.
    [bindTexImageFromSurface] marks the texture as sourced from this
    surface, [releaseTexImageFromSurface] clears that back-reference. *)
Definition Texture_bindTexImageFromSurface (t : Texture) : M unit :=
  emit (EvTextureBindTexImageFromSurface t);;
  modify_sourced (fun ts => {[t]} ∪ ts).

Definition Texture_releaseTexImageFromSurface (t : Texture) : M unit :=
  emit (EvTextureReleaseTexImageFromSurface t);;
  modify_sourced (fun ts => ts ∖ {[t]}).

(** *** Destruction *)

(** [Surface::~Surface()]. [SafeDelete] deletes and nulls the pointer. *)
Definition Surface_dtor : M unit :=
  s ← this;
  match mTexture s with
  | Some t =>
      match mImplementation s with
      | Some _ =>
          call_impl (EvImplReleaseTexImage EGL.BACK_BUFFER)
            (impl_releaseTexImage EGL.BACK_BUFFER);;
          mret tt
      | None => mret tt
      end;;
      Texture_releaseTexImageFromSurface t;;
      modify (set_mTexture None)
  | None => mret tt
  end;;
  s ← this;
  match mState_defaultFramebuffer s with
  | Some _ => emit EvDeleteFramebuffer;; modify (set_defaultFramebuffer None)
  | None => mret tt
  end;;
  s ← this;
  match mImplementation s with
  | Some _ => emit EvDeleteImplementation;; modify (set_mImplementation None)
  | None => mret tt
  end.

(** [delete this]: run the destructor, then give the storage back. *)
Definition delete_this : M unit :=
  Surface_dtor;;
  free_this.

(** [Surface::destroy(display)]. *)
Definition destroy (display : Display) : M unit :=
  s ← this;
  match mState_defaultFramebuffer s with
  | Some _ => emit (EvFramebufferDestroyDefault display)
  | None => mret tt
  end;;
  match mImplementation s with
  | Some _ =>
      call_impl (EvImplDestroy display) (fun i => (tt, impl_destroy display i))
  | None => mret tt
  end;;
  delete_this.

(** [Surface::initialize(display)]. *)
Definition initialize (display : Display) : M Error :=
  err ← call_impl (EvImplInitialize display) (impl_initialize display);
  if isError err then mret err
  else
    s ← this;
    match mImplementation s with
    | None => crash NullDereference
    | Some i => modify (set_mSwapBehavior (to_EGLenum (impl_getSwapBehavior i)))
    end;;
    modify (set_defaultFramebuffer (Some DefaultFramebuffer));;
    s ← this;
    ASSERT (non_null (mState_defaultFramebuffer s));;
    mret (mkError EGL.SUCCESS).

(** *** The current count *)

(** [Surface::setIsCurrent(display, isCurrent)]. *)
Definition setIsCurrent (display : Display) (isCurrent : bool) : M unit :=
  if isCurrent
  then modify (fun s => set_mCurrentCount (mCurrentCount s + 1) s)
  else
    s ← this;
    ASSERT (0 <? mCurrentCount s);;
    modify (fun s => set_mCurrentCount (mCurrentCount s - 1) s);;
    s ← this;
    if (mCurrentCount s =? 0) && mDestroyed s
    then destroy display
    else mret tt.

(** [Surface::onDestroy(display)]. *)
Definition onDestroy (display : Display) : M unit :=
  modify (set_mDestroyed true);;
  s ← this;
  if mCurrentCount s =? 0 then destroy display else mret tt.

(** *** Texture binding *)

(** [Surface::bindTexImage(texture, buffer)]. *)
Definition bindTexImage (texture : Texture) (buffer : EGLint) : M Error :=
  s ← this;
  ASSERT (negb (non_null (mTexture s)));;
  err ← call_impl (EvImplBindTexImage texture buffer)
          (impl_bindTexImage texture buffer);
  if isError err then mret err
  else
    Texture_bindTexImageFromSurface texture;;
    modify (set_mTexture (Some texture));;
    mret (mkError EGL.SUCCESS).

(** [Surface::releaseTexImage(buffer)]. *)
Definition releaseTexImage (buffer : EGLint) : M Error :=
  err ← call_impl (EvImplReleaseTexImage buffer) (impl_releaseTexImage buffer);
  if isError err then mret err
  else
    s ← this;
    ASSERT (non_null (mTexture s));;
    match mTexture s with
    | Some t => Texture_releaseTexImageFromSurface t
    | None => crash NullDereference
    end;;
    modify (set_mTexture None);;
    mret (mkError EGL.SUCCESS).

(** [Surface::releaseTexImageFromTexture()]. *)
Definition releaseTexImageFromTexture : M unit :=
  s ← this;
  ASSERT (non_null (mTexture s));;
  modify (set_mTexture None).

(** *** Queries

    Const member functions, as functions of the members; [None] is the
    dereference of a null [mImplementation]. *)


(** [mPostSubBufferRequested && mImplementation->isPostSubBufferSupported()]:
    the right operand is evaluated only when the left one is true. *)
Definition isPostSubBufferSupported (s : Surface) : option EGLint :=
  if mPostSubBufferRequested s
  then i ← mImplementation s;
       Some (bool_to_int (int_to_bool (impl_isPostSubBufferSupported i)))
  else Some (bool_to_int false).

Definition getTextureFormat (s : Surface) : EGLenum := mTextureFormat s.

Definition getTextureTarget (s : Surface) : EGLenum := mTextureTarget s.


Definition getWidth (s : Surface) : option EGLint :=
  if mFixedSize s then Some (to_EGLint (mFixedWidth s))
  else impl_getWidth <$> mImplementation s.

Definition getHeight (s : Surface) : option EGLint :=
  if mFixedSize s then Some (to_EGLint (mFixedHeight s))
  else impl_getHeight <$> mImplementation s.

(** *** Sequences of lifetime operations *)

Inductive Op : Type :=
| OpSetIsCurrent (isCurrent : bool)
| OpOnDestroy.

Definition step (display : Display) (o : Op) : M unit :=
  match o with
  | OpSetIsCurrent b => setIsCurrent display b
  | OpOnDestroy => onDestroy display
  end.

Fixpoint run (display : Display) (ops : list Op) : M unit :=
  match ops with
  | [] => mret tt
  | o :: rest => step display o;; run display rest
  end.

End Surface.

Arguments Surface I : clear implicits.
Arguments World I : clear implicits.
Arguments Done {I A} a w.
Arguments Crash {I A} f w.

(** ** A backend for concrete runs

    Reports fixed sizes and a fixed status for the fallible calls, and
    counts the calls it receives. *)
Record MockSurfaceImpl : Type := mkMock {
  mock_width : EGLint;
  mock_height : EGLint;
  mock_postSubBuffer : EGLint;
  mock_status : EGLint;
  mock_calls : nat
}.

Definition mock_called (m : MockSurfaceImpl) : MockSurfaceImpl :=
  mkMock (mock_width m) (mock_height m) (mock_postSubBuffer m)
    (mock_status m) (S (mock_calls m)).

#[global] Instance MockSurfaceImpl_impl : SurfaceImpl MockSurfaceImpl := {|
  impl_initialize _ m := (mkError (mock_status m), mock_called m);
  impl_destroy _ m := mock_called m;
  impl_getSwapBehavior _ := 0x3094;
  impl_isPostSubBufferSupported m := mock_postSubBuffer m;
  impl_getWidth m := mock_width m;
  impl_getHeight m := mock_height m;
  impl_bindTexImage _ _ m := (mkError (mock_status m), mock_called m);
  impl_releaseTexImage _ m := (mkError (mock_status m), mock_called m)
|}.

#[global] Instance MockFactory : EGLImplFactory MockSurfaceImpl := {|
  createWindowSurface _ _ _ := mkMock 640 480 EGL.TRUE EGL.SUCCESS 0;
  createPbufferSurface _ _ := mkMock 64 64 EGL.FALSE EGL.SUCCESS 0;
  createPbufferFromClientBuffer _ _ _ _ := mkMock 64 64 EGL.FALSE EGL.SUCCESS 0;
  createPixmapSurface _ _ _ := mkMock 32 32 EGL.FALSE EGL.SUCCESS 0
|}.

(** ** Vocabulary for the lifetime properties *)

Section Lifetime.

Context {I : Type} `{SurfaceImpl I}.

(** Number of times the storage of the surface was given back. *)
Definition teardowns (w : World I) : nat :=
  count_occ Event_eq_dec (trace w) EvSurfaceFreed.

(** The calls a teardown makes on a surface with members [s], in order:
    what [destroy] does itself, then what the destructor does. *)
Definition teardown_events (display : Display) (s : Surface I) : list Event :=
  (match mState_defaultFramebuffer s with
   | Some _ => [EvFramebufferDestroyDefault display]
   | None => []
   end)
  ++ (match mImplementation s with
      | Some _ => [EvImplDestroy display]
      | None => []
      end)
  ++ (match mTexture s with
      | Some t =>
          (match mImplementation s with
           | Some _ => [EvImplReleaseTexImage EGL.BACK_BUFFER]
           | None => []
           end) ++ [EvTextureReleaseTexImageFromSurface t]
      | None => []
      end)
  ++ (match mState_defaultFramebuffer s with
      | Some _ => [EvDeleteFramebuffer]
      | None => []
      end)
  ++ (match mImplementation s with
      | Some _ => [EvDeleteImplementation]
      | None => []
      end)
  ++ [EvSurfaceFreed].

(** Position of the first occurrence of an event. *)
Fixpoint index_of (e : Event) (tr : list Event) : option nat :=
  match tr with
  | [] => None
  | x :: rest =>
      if decide (x = e) then Some 0%nat else S <$> index_of e rest
  end.

(** Both events occur, and the first [a] comes before the first [b]. *)
Definition precedes (a b : Event) (tr : list Event) : bool :=
  match index_of a tr, index_of b tr with
  | Some i, Some j => (i <? j)%nat
  | _, _ => false
  end.

(** The count a sequence of operations leaves, starting from [count]:
    increments minus decrements. *)
Fixpoint net_count (count : Z) (ops : list Op) : Z :=
  match ops with
  | [] => count
  | OpSetIsCurrent true :: rest => net_count (count + 1) rest
  | OpSetIsCurrent false :: rest => net_count (count - 1) rest
  | OpOnDestroy :: rest => net_count count rest
  end.

(** No [setIsCurrent(false)] is issued while the running count, started
    at [count], is zero or less. *)
Fixpoint never_below_zero (count : Z) (ops : list Op) : bool :=
  match ops with
  | [] => true
  | OpSetIsCurrent true :: rest => never_below_zero (count + 1) rest
  | OpSetIsCurrent false :: rest =>
      (0 <? count) && never_below_zero (count - 1) rest
  | OpOnDestroy :: rest => never_below_zero count rest
  end.

(** The order of teardown calls in which the texture's claim is released
    first: the release of texture [t] before the framebuffer's
    [destroyDefault], that before the backend's [destroy], that before the
    storage is given back. *)
Definition texture_released_first (display : Display) (t : Texture)
    (tr : list Event) : bool :=
  precedes (EvTextureReleaseTexImageFromSurface t)
    (EvFramebufferDestroyDefault display) tr
  && precedes (EvFramebufferDestroyDefault display) (EvImplDestroy display) tr
  && precedes (EvImplDestroy display) EvSurfaceFreed tr.

(** The world with the count, or the destroyed flag, assigned. *)
Definition with_count (c : Z) (w : World I) : World I :=
  mkWorld (set_mCurrentCount c (surface w)) (alive w) (sourced w) (trace w).

Definition with_destroyed (w : World I) : World I :=
  mkWorld (set_mDestroyed true (surface w)) (alive w) (sourced w) (trace w).

(** The three ways one operation on an existing surface can end: the
    surface lives on with its count and flag updated and no call made; the
    surface is torn down, which needs the flag and a count that has just
    become or already is zero; or the decrement's assertion fails. *)
Inductive step_result (o : Op) (w : World I) : Outcome () -> Prop :=
| StepLive w' :
    alive w' = true ->
    trace w' = trace w ->
    mCurrentCount (surface w') = net_count (mCurrentCount (surface w)) [o] ->
    never_below_zero (mCurrentCount (surface w)) [o] = true ->
    (mDestroyed (surface w') = true ->
     mDestroyed (surface w) = true \/ o = OpOnDestroy) ->
    step_result o w (Done tt w')
| StepTeardown w' :
    alive w' = false ->
    teardowns w' = S (teardowns w) ->
    net_count (mCurrentCount (surface w)) [o] = 0 ->
    never_below_zero (mCurrentCount (surface w)) [o] = true ->
    mDestroyed (surface w) = true \/ o = OpOnDestroy ->
    step_result o w (Done tt w')
| StepAssert :
    o = OpSetIsCurrent false ->
    mCurrentCount (surface w) <= 0 ->
    step_result o w (Crash AssertionFailure w).

End Lifetime.

(** ** WebCore::FetchOptions *)

Module WebCore.

Import Byte.

Module Destination.
Inductive t : Type :=
| EmptyString | Audio | Document | Embed | Font | Image | Manifest | Object
| Report | Script | Serviceworker | Sharedworker | Style | Track | Video
| Worker | Xslt.
End Destination.

Module Mode.
Inductive t : Type := Navigate | SameOrigin | NoCors | Cors.
End Mode.

Module Credentials.
Inductive t : Type := Omit | SameOrigin | Include.
End Credentials.

Module Cache.
Inductive t : Type :=
| Default | NoStore | Reload | NoCache | ForceCache | OnlyIfCached.
End Cache.

Module Redirect.
Inductive t : Type := Follow | Error | Manual.
End Redirect.

(** [WTF::String]: the null string, or a sequence of characters. *)
Definition WTFString : Type := option string.

(** The [Encoder] and [Decoder] template arguments, for one value type: an
    encoder is the buffer written so far and [encoder << v] appends the
    bytes [put v]; a decoder is the input still to be read and
    [decoder.decode(v)] either yields a value or fails, and in both cases
    leaves the decoder somewhere in its input. *)
Class Coder (T : Type) : Type := {
  put : T -> list byte;
  get : list byte -> option T * list byte
}.

(** What a matching encoder and decoder guarantee for [T]. *)
Definition lawful (T : Type) `{Coder T} : Prop :=
  forall (v : T) (rest : list byte), get (put v ++ rest) = (Some v, rest).

Section FetchOptions.

(** ReferrerPolicy.h is not among the sources: the enumeration is a
    parameter. *)
Variable ReferrerPolicy : Type.

Context `{Coder Destination.t} `{Coder Mode.t} `{Coder Credentials.t}
        `{Coder Cache.t} `{Coder Redirect.t} `{Coder ReferrerPolicy}
        `{Coder WTFString} `{Coder bool}.

Record FetchOptions : Type := mkFetchOptions {
  destination : Destination.t;
  mode : Mode.t;
  credentials : Credentials.t;
  cache : Cache.t;
  redirect : Redirect.t;
  referrerPolicy : ReferrerPolicy;
  integrity : WTFString;
  keepAlive : bool
}.

(** [FetchOptions::encode(Encoder&)]. *)
Definition encode (options : FetchOptions) (encoder : list byte) : list byte :=
  let encoder := encoder ++ put (destination options) in
  let encoder := encoder ++ put (mode options) in
  let encoder := encoder ++ put (credentials options) in
  let encoder := encoder ++ put (cache options) in
  let encoder := encoder ++ put (redirect options) in
  let encoder := encoder ++ put (referrerPolicy options) in
  let encoder := encoder ++ put (integrity options) in
  let encoder := encoder ++ put (keepAlive options) in
  encoder.

(** [FetchOptions::decode(Decoder&, FetchOptions&)]: the returned triple is
    the [bool] result, the [options] argument after the call and the
    decoder after the call. *)
Definition decode (decoder : list byte) (options : FetchOptions)
  : bool * FetchOptions * list byte :=
  match get (T := Destination.t) decoder with
  | (None, decoder) => (false, options, decoder)
  | (Some destination, decoder) =>
  match get (T := Mode.t) decoder with
  | (None, decoder) => (false, options, decoder)
  | (Some mode, decoder) =>
  match get (T := Credentials.t) decoder with
  | (None, decoder) => (false, options, decoder)
  | (Some credentials, decoder) =>
  match get (T := Cache.t) decoder with
  | (None, decoder) => (false, options, decoder)
  | (Some cache, decoder) =>
  match get (T := Redirect.t) decoder with
  | (None, decoder) => (false, options, decoder)
  | (Some redirect, decoder) =>
  match get (T := ReferrerPolicy) decoder with
  | (None, decoder) => (false, options, decoder)
  | (Some referrerPolicy, decoder) =>
  match get (T := WTFString) decoder with
  | (None, decoder) => (false, options, decoder)
  | (Some integrity, decoder) =>
  match get (T := bool) decoder with
  | (None, decoder) => (false, options, decoder)
  | (Some keepAlive, decoder) =>
      (true,
       {| destination := destination;
          mode := mode;
          credentials := credentials;
          cache := cache;
          redirect := redirect;
          referrerPolicy := referrerPolicy;
          integrity := integrity;
          keepAlive := keepAlive |},
       decoder)
  end end end end end end end end.

(** All eight field decodes succeed in order from [decoder], yield the
    fields of [o] and leave the decoder at [decoder']. *)
Definition all_fields_decode (decoder : list byte) (o : FetchOptions)
    (decoder' : list byte) : Prop :=
  exists d1 d2 d3 d4 d5 d6 d7,
    get decoder = (Some (destination o), d1)
    /\ get d1 = (Some (mode o), d2)
    /\ get d2 = (Some (credentials o), d3)
    /\ get d3 = (Some (cache o), d4)
    /\ get d4 = (Some (redirect o), d5)
    /\ get d5 = (Some (referrerPolicy o), d6)
    /\ get d6 = (Some (integrity o), d7)
    /\ get d7 = (Some (keepAlive o), decoder').

End FetchOptions.

Arguments destination {ReferrerPolicy} _.
Arguments mode {ReferrerPolicy} _.
Arguments credentials {ReferrerPolicy} _.
Arguments cache {ReferrerPolicy} _.
Arguments redirect {ReferrerPolicy} _.
Arguments referrerPolicy {ReferrerPolicy} _.
Arguments integrity {ReferrerPolicy} _.
Arguments keepAlive {ReferrerPolicy} _.
Arguments mkFetchOptions {ReferrerPolicy} _ _ _ _ _ _ _ _.
Arguments encode {ReferrerPolicy _ _ _ _ _ _ _ _} options encoder.
Arguments decode {ReferrerPolicy _ _ _ _ _ _ _ _} decoder options.
Arguments all_fields_decode {ReferrerPolicy _ _ _ _ _ _ _ _} decoder o decoder'.

(** *** A byte-level encoder and decoder

    One byte per enumerator, checked against the enumeration's values when
    read (the role of [EnumTraits]); one byte per [bool]; a string as a
    presence byte followed by its characters, each announced by a
    continuation byte. *)

Module ReferrerPolicy.
Inductive t : Type :=
| EmptyString | NoReferrer | NoReferrerWhenDowngrade | SameOrigin | Origin
| StrictOrigin | OriginWhenCrossOrigin | StrictOriginWhenCrossOrigin | UnsafeUrl.
End ReferrerPolicy.

Definition get_byte {T : Type} (of_byte : byte -> option T) (decoder : list byte)
  : option T * list byte :=
  match decoder with
  | [] => (None, [])
  | b :: rest => (of_byte b, rest)
  end.

#[global] Instance Destination_coder : Coder Destination.t := {|
  put v := [match v with
            | Destination.EmptyString => x00 | Destination.Audio => x01
            | Destination.Document => x02 | Destination.Embed => x03
            | Destination.Font => x04 | Destination.Image => x05
            | Destination.Manifest => x06 | Destination.Object => x07
            | Destination.Report => x08 | Destination.Script => x09
            | Destination.Serviceworker => x0a | Destination.Sharedworker => x0b
            | Destination.Style => x0c | Destination.Track => x0d
            | Destination.Video => x0e | Destination.Worker => x0f
            | Destination.Xslt => x10
            end];
  get := get_byte (fun b =>
           match b with
           | x00 => Some Destination.EmptyString | x01 => Some Destination.Audio
           | x02 => Some Destination.Document | x03 => Some Destination.Embed
           | x04 => Some Destination.Font | x05 => Some Destination.Image
           | x06 => Some Destination.Manifest | x07 => Some Destination.Object
           | x08 => Some Destination.Report | x09 => Some Destination.Script
           | x0a => Some Destination.Serviceworker
           | x0b => Some Destination.Sharedworker
           | x0c => Some Destination.Style | x0d => Some Destination.Track
           | x0e => Some Destination.Video | x0f => Some Destination.Worker
           | x10 => Some Destination.Xslt
           | _ => None
           end)
|}.

#[global] Instance Mode_coder : Coder Mode.t := {|
  put v := [match v with
            | Mode.Navigate => x00 | Mode.SameOrigin => x01
            | Mode.NoCors => x02 | Mode.Cors => x03
            end];
  get := get_byte (fun b =>
           match b with
           | x00 => Some Mode.Navigate | x01 => Some Mode.SameOrigin
           | x02 => Some Mode.NoCors | x03 => Some Mode.Cors
           | _ => None
           end)
|}.

#[global] Instance Credentials_coder : Coder Credentials.t := {|
  put v := [match v with
            | Credentials.Omit => x00 | Credentials.SameOrigin => x01
            | Credentials.Include => x02
            end];
  get := get_byte (fun b =>
           match b with
           | x00 => Some Credentials.Omit | x01 => Some Credentials.SameOrigin
           | x02 => Some Credentials.Include
           | _ => None
           end)
|}.

#[global] Instance Cache_coder : Coder Cache.t := {|
  put v := [match v with
            | Cache.Default => x00 | Cache.NoStore => x01 | Cache.Reload => x02
            | Cache.NoCache => x03 | Cache.ForceCache => x04
            | Cache.OnlyIfCached => x05
            end];
  get := get_byte (fun b =>
           match b with
           | x00 => Some Cache.Default | x01 => Some Cache.NoStore
           | x02 => Some Cache.Reload | x03 => Some Cache.NoCache
           | x04 => Some Cache.ForceCache | x05 => Some Cache.OnlyIfCached
           | _ => None
           end)
|}.

#[global] Instance Redirect_coder : Coder Redirect.t := {|
  put v := [match v with
            | Redirect.Follow => x00 | Redirect.Error => x01
            | Redirect.Manual => x02
            end];
  get := get_byte (fun b =>
           match b with
           | x00 => Some Redirect.Follow | x01 => Some Redirect.Error
           | x02 => Some Redirect.Manual
           | _ => None
           end)
|}.

#[global] Instance ReferrerPolicy_coder : Coder ReferrerPolicy.t := {|
  put v := [match v with
            | ReferrerPolicy.EmptyString => x00 | ReferrerPolicy.NoReferrer => x01
            | ReferrerPolicy.NoReferrerWhenDowngrade => x02
            | ReferrerPolicy.SameOrigin => x03 | ReferrerPolicy.Origin => x04
            | ReferrerPolicy.StrictOrigin => x05
            | ReferrerPolicy.OriginWhenCrossOrigin => x06
            | ReferrerPolicy.StrictOriginWhenCrossOrigin => x07
            | ReferrerPolicy.UnsafeUrl => x08
            end];
  get := get_byte (fun b =>
           match b with
           | x00 => Some ReferrerPolicy.EmptyString
           | x01 => Some ReferrerPolicy.NoReferrer
           | x02 => Some ReferrerPolicy.NoReferrerWhenDowngrade
           | x03 => Some ReferrerPolicy.SameOrigin
           | x04 => Some ReferrerPolicy.Origin
           | x05 => Some ReferrerPolicy.StrictOrigin
           | x06 => Some ReferrerPolicy.OriginWhenCrossOrigin
           | x07 => Some ReferrerPolicy.StrictOriginWhenCrossOrigin
           | x08 => Some ReferrerPolicy.UnsafeUrl
           | _ => None
           end)
|}.

#[global] Instance bool_coder : Coder bool := {|
  put v := [match v with true => x01 | false => x00 end];
  get := get_byte (fun b =>
           match b with
           | x00 => Some false
           | x01 => Some true
           | _ => None
           end)
|}.

Fixpoint put_chars (s : string) : list byte :=
  match s with
  | EmptyString => [x00]
  | String c rest => x01 :: byte_of_ascii c :: put_chars rest
  end.

(** The input bounds the recursion: every character read consumes two
    bytes of it. *)
Fixpoint get_chars (fuel : nat) (decoder : list byte) : option string * list byte :=
  match fuel, decoder with
  | _, x00 :: rest => (Some EmptyString, rest)
  | S fuel, x01 :: b :: rest =>
      match get_chars fuel rest with
      | (Some s, rest') => (Some (String (ascii_of_byte b) s), rest')
      | (None, rest') => (None, rest')
      end
  | _, _ => (None, decoder)
  end.

#[global] Instance WTFString_coder : Coder WTFString := {|
  put v := match v with
           | None => [x00]
           | Some s => x01 :: put_chars s
           end;
  get decoder :=
    match decoder with
    | x00 :: rest => (Some None, rest)
    | x01 :: rest =>
        match get_chars (length rest) rest with
        | (Some s, rest') => (Some (Some s), rest')
        | (None, rest') => (None, rest')
        end
    | _ => (None, decoder)
    end
|}.

End WebCore.

(** ** Concrete surfaces and options *)

Import WebCore.

Definition example_config : Config :=
  {| renderTargetFormat := 0x8058; depthStencilFormat := 0x88F0; samples := 0 |}.

(** A window surface on a 64-bit platform, no attributes. *)
Definition window_surface : Surface MockSurfaceImpl :=
  Eval vm_compute in WindowSurface_ctor 64 example_config 1 ∅.

(** A pbuffer surface, initialised, with texture 5 bound to its back
    buffer. *)
Definition bound_pbuffer : World MockSurfaceImpl :=
  Eval vm_compute in
  final (bindTexImage 5%positive EGL.BACK_BUFFER
           (final (initialize 0%nat
                     (new_world (PbufferSurface_ctor 64 example_config ∅))))).

(** Fixed-size attributes: 800 by 600, and a width beyond 32 bits. *)
Definition fixed_800_600 : gmap Z Z :=
  <[EGL.FIXED_SIZE_ANGLE := EGL.TRUE]>
    (<[EGL.WIDTH := 800]> (<[EGL.HEIGHT := 600]> ∅)).

Definition fixed_wide : gmap Z Z :=
  <[EGL.FIXED_SIZE_ANGLE := EGL.TRUE]>
    (<[EGL.WIDTH := 2 ^ 32 + 800]> (<[EGL.HEIGHT := 600]> ∅)).

Definition example_options : FetchOptions ReferrerPolicy.t :=
  {| destination := Destination.Script;
     mode := Mode.Cors;
     credentials := Credentials.SameOrigin;
     cache := Cache.NoCache;
     redirect := Redirect.Manual;
     referrerPolicy := ReferrerPolicy.StrictOrigin;
     integrity := Some "sha256-abc"%string;
     keepAlive := true |}.

Definition default_options : FetchOptions ReferrerPolicy.t :=
  {| destination := Destination.EmptyString;
     mode := Mode.NoCors;
     credentials := Credentials.Omit;
     cache := Cache.Default;
     redirect := Redirect.Follow;
     referrerPolicy := ReferrerPolicy.EmptyString;
     integrity := None;
     keepAlive := false |}.

(** ** The remaining member functions of egl::Surface *)

(** The presentation half of [rx::SurfaceImpl]; out-parameters are
    returned beside the status. *)
Class SurfaceImplPresentation (I : Type) : Type := {
  impl_swap : Display -> I -> Error * I;
  impl_swapWithDamage : list EGLint -> EGLint -> I -> Error * I;
  impl_postSubBuffer : EGLint -> EGLint -> EGLint -> EGLint -> I -> Error * I;
  impl_querySurfacePointerANGLE : EGLint -> I -> (Error * Z) * I;
  impl_setSwapInterval : EGLint -> I -> I;
  impl_getSyncValues : I -> (Error * (Z * Z * Z)) * I
}.


Section Presentation.

Context {I : Type} `{SurfaceImpl I} `{SurfaceImplPresentation I}.

(** [mImplementation->f(...)] for the presentation calls, which take no
    part in the teardown and binding protocol and are not logged. *)
Definition forward_impl {A : Type} (f : I -> A * I) : M (I := I) A :=
  s ← this;
  match mImplementation s with
  | None => crash NullDereference
  | Some i =>
      modify (set_mImplementation (Some (snd (f i))));;
      mret (fst (f i))
  end.

(** [Surface::swap(display)]. *)
Definition swap (display : Display) : M (I := I) Error :=
  forward_impl (impl_swap display).

(** [Surface::swapWithDamage(rects, n_rects)]. *)
Definition swapWithDamage (rects : list EGLint) (n_rects : EGLint)
  : M (I := I) Error :=
  forward_impl (impl_swapWithDamage rects n_rects).

(** [Surface::postSubBuffer(x, y, width, height)]. *)
Definition postSubBuffer (x y width height : EGLint) : M (I := I) Error :=
  forward_impl (impl_postSubBuffer x y width height).

(** [Surface::querySurfacePointerANGLE(attribute, value)]. *)
Definition querySurfacePointerANGLE (attribute : EGLint) : M (I := I) (Error * Z) :=
  forward_impl (impl_querySurfacePointerANGLE attribute).

(** [Surface::setSwapInterval(interval)]. *)
Definition setSwapInterval (interval : EGLint) : M (I := I) unit :=
  forward_impl (fun i => (tt, impl_setSwapInterval interval i)).

(** [Surface::getSyncValues(ust, msc, sbc)]. *)
Definition getSyncValues : M (I := I) (Error * (Z * Z * Z)) :=
  forward_impl impl_getSyncValues.




Definition getSwapBehavior (s : Surface I) : EGLenum := mSwapBehavior s.

(** [Surface::getAttachmentSize(target)]: [gl::Extents(getWidth(),
    getHeight(), 1)]. *)
Definition getAttachmentSize (s : Surface I) : option (Z * Z * Z) :=
  width ← getWidth s;
  height ← getHeight s;
  Some (width, height, 1).



(** Every member function that changes something, as one call. *)
Inductive Call : Type :=
| CallInitialize (display : Display)
| CallSetIsCurrent (display : Display) (isCurrent : bool)
| CallOnDestroy (display : Display)
| CallSwap (display : Display)
| CallSwapWithDamage (rects : list EGLint) (n_rects : EGLint)
| CallPostSubBuffer (x y width height : EGLint)
| CallQuerySurfacePointerANGLE (attribute : EGLint)
| CallSetSwapInterval (interval : EGLint)
| CallBindTexImage (texture : Texture) (buffer : EGLint)
| CallReleaseTexImage (buffer : EGLint)
| CallGetSyncValues
| CallReleaseTexImageFromTexture.

(** One call, its result dropped. *)
Definition exec (c : Call) : M (I := I) unit :=
  match c with
  | CallInitialize display => initialize display;; mret tt
  | CallSetIsCurrent display isCurrent => setIsCurrent display isCurrent
  | CallOnDestroy display => onDestroy display
  | CallSwap display => swap display;; mret tt
  | CallSwapWithDamage rects n_rects => swapWithDamage rects n_rects;; mret tt
  | CallPostSubBuffer x y width height =>
      postSubBuffer x y width height;; mret tt
  | CallQuerySurfacePointerANGLE attribute =>
      querySurfacePointerANGLE attribute;; mret tt
  | CallSetSwapInterval interval => setSwapInterval interval
  | CallBindTexImage texture buffer => bindTexImage texture buffer;; mret tt
  | CallReleaseTexImage buffer => releaseTexImage buffer;; mret tt
  | CallGetSyncValues => getSyncValues;; mret tt
  | CallReleaseTexImageFromTexture => releaseTexImageFromTexture
  end.

Fixpoint exec_all (calls : list Call) : M (I := I) unit :=
  match calls with
  | [] => mret tt
  | c :: rest => exec c;; exec_all rest
  end.

(** The members that only the constructor writes. *)
Definition same_construction (s s' : Surface I) : Prop :=
  mState_config s' = mState_config s
  /\ mType s' = mType s
  /\ mPostSubBufferRequested s' = mPostSubBufferRequested s
  /\ mFlexibleSurfaceCompatibilityRequested s'
     = mFlexibleSurfaceCompatibilityRequested s
  /\ mDirectComposition s' = mDirectComposition s
  /\ mFixedSize s' = mFixedSize s
  /\ mFixedWidth s' = mFixedWidth s
  /\ mFixedHeight s' = mFixedHeight s
  /\ mTextureFormat s' = mTextureFormat s
  /\ mTextureTarget s' = mTextureTarget s
  /\ mPixelAspectRatio s' = mPixelAspectRatio s
  /\ mRenderBuffer s' = mRenderBuffer s
  /\ mOrientation s' = mOrientation s
  /\ mBackFormat s' = mBackFormat s
  /\ mDSFormat s' = mDSFormat s.

(** The calls that can end a surface's life. *)
Definition is_lifetime_call (c : Call) : bool :=
  match c with
  | CallSetIsCurrent _ false => true
  | CallOnDestroy _ => true
  | _ => false
  end.

End Presentation.

(** The attributes the constructor looks at. *)
Definition constructor_keys : list Z :=
  [EGL.POST_SUB_BUFFER_SUPPORTED_NV;
   EGL.FLEXIBLE_SURFACE_COMPATIBILITY_SUPPORTED_ANGLE;
   EGL.DIRECT_COMPOSITION_ANGLE;
   EGL.FIXED_SIZE_ANGLE;
   EGL.WIDTH;
   EGL.HEIGHT;
   EGL.TEXTURE_FORMAT;
   EGL.TEXTURE_TARGET;
   EGL.SURFACE_ORIENTATION_ANGLE].

#[global] Instance MockSurfaceImpl_presentation
  : SurfaceImplPresentation MockSurfaceImpl := {|
  impl_swap _ m := (mkError (mock_status m), mock_called m);
  impl_swapWithDamage _ _ m := (mkError (mock_status m), mock_called m);
  impl_postSubBuffer _ _ _ _ m := (mkError (mock_status m), mock_called m);
  impl_querySurfacePointerANGLE _ m := ((mkError (mock_status m), 0), mock_called m);
  impl_setSwapInterval _ m := mock_called m;
  impl_getSyncValues m := ((mkError (mock_status m), (0, 0, 0)), mock_called m)
|}.

(** The calls of the texture binding protocol, on either side. *)
Definition is_texture_call (e : Event) : bool :=
  match e with
  | EvImplBindTexImage _ _ => true
  | EvImplReleaseTexImage _ => true
  | EvTextureBindTexImageFromSurface _ => true
  | EvTextureReleaseTexImageFromSurface _ => true
  | _ => false
  end.

(** A pbuffer surface whose backend fails every call with EGL_BAD_ALLOC. *)
Definition failing_surface : Surface MockSurfaceImpl :=
  Eval vm_compute in
  set_mImplementation (Some (mkMock 64 64 EGL.FALSE 0x3003 0))
    (Surface_ctor 64 EGL.PBUFFER_BIT example_config ∅).



(** The same without the two calls that can end it. *)
Definition example_calls_kept : list Call :=
  [CallInitialize 0%nat;
   CallSetIsCurrent 0%nat true;
   CallSwap 0%nat;
   CallPostSubBuffer 0 0 16 16;
   CallBindTexImage 5%positive EGL.BACK_BUFFER;
   CallBindTexImage 7%positive EGL.BACK_BUFFER].

(** ** WTF::EnumTraits for the FetchOptions enumerations *)

Module EnumTraits.
Import WebCore.

Definition Destination_values : list Destination.t :=
  [Destination.EmptyString; Destination.Audio; Destination.Document;
   Destination.Embed; Destination.Font; Destination.Image;
   Destination.Manifest; Destination.Object; Destination.Report;
   Destination.Script; Destination.Serviceworker; Destination.Sharedworker;
   Destination.Style; Destination.Track; Destination.Video;
   Destination.Worker; Destination.Xslt].

Definition Mode_values : list Mode.t :=
  [Mode.Navigate; Mode.SameOrigin; Mode.NoCors; Mode.Cors].

Definition Credentials_values : list Credentials.t :=
  [Credentials.Omit; Credentials.SameOrigin; Credentials.Include].

Definition Cache_values : list Cache.t :=
  [Cache.Default; Cache.NoStore; Cache.Reload; Cache.NoCache;
   Cache.ForceCache; Cache.OnlyIfCached].

Definition Redirect_values : list Redirect.t :=
  [Redirect.Follow; Redirect.Error; Redirect.Manual].

End EnumTraits.

(** * Properties *)

(** ** Integer conversions *)

(** An [EGLint] value survives the trip through [size_t] and back. *)
Lemma to_EGLint_wrap_unsigned (p x : Z) :
  32 <= p -> is_EGLint x -> to_EGLint (wrap_unsigned p x) = x.
Proof.
  intros Hp [Hlo Hhi]. unfold to_EGLint, wrap_signed, wrap_unsigned.
  assert (Hdiv : (2 ^ 32 | 2 ^ p)).
  { exists (2 ^ (p - 32)). rewrite <- Z.pow_add_r by lia. f_equal. lia. }
  rewrite <- Zplus_mod_idemp_l.
  rewrite Z.mod_mod_divide by exact Hdiv.
  rewrite Zplus_mod_idemp_l.
  change (32 - 1) with 31 in *.
  rewrite Z.mod_small; lia.
Qed.

Lemma to_EGLenum_small (x : Z) : 0 <= x < 2 ^ 32 -> to_EGLenum x = x.
Proof. intros Hx. unfold to_EGLenum, wrap_unsigned. apply Z.mod_small, Hx. Qed.

(** ** The lifetime state machine *)

Section LifetimeProperties.

Context {I : Type} `{SurfaceImpl I}.

Ltac monad :=
  unfold mbind, M_bind, mret, M_ret, this, modify, emit, modify_sourced,
    free_this, ASSERT, crash in *; simpl in *.

(** [destroy] on an existing surface always returns; it makes exactly the
    calls of [teardown_events] and leaves no surface behind. *)
Lemma destroy_alive (d : Display) (w : World I) :
  alive w = true ->
  exists w',
    destroy d w = Done tt w'
    /\ alive w' = false
    /\ trace w' = trace w ++ teardown_events d (surface w)
    /\ sourced w' = match mTexture (surface w) with
                    | Some t => sourced w ∖ {[t]}
                    | None => sourced w
                    end.
Proof.
  intros Ha. destruct w as [s a ts tr]. simpl in Ha. subst a.
  unfold destroy, delete_this, Surface_dtor, Texture_releaseTexImageFromSurface,
    call_impl, teardown_events.
  destruct s as [fb cfg im cnt ds ty psb fl dc fs fw fh tf tg par rb sb ori tex bf dsf].
  destruct tex as [t|], im as [i|], fb as [f|]; monad;
    eexists; (split; [reflexivity|]); simpl;
    rewrite <- ?app_assoc, ?app_nil_r; simpl; auto.
Qed.

Lemma teardown_events_freed_once (d : Display) (s : Surface I) :
  count_occ Event_eq_dec (teardown_events d s) EvSurfaceFreed = 1%nat.
Proof.
  unfold teardown_events.
  destruct (mState_defaultFramebuffer s), (mImplementation s), (mTexture s);
    reflexivity.
Qed.

Lemma teardowns_app (w w' : World I) (evs : list Event) :
  trace w' = trace w ++ evs ->
  teardowns w' = (teardowns w + count_occ Event_eq_dec evs EvSurfaceFreed)%nat.
Proof. intros E. unfold teardowns. rewrite E. apply count_occ_app. Qed.

Lemma destroy_teardowns (d : Display) (w w' : World I) :
  trace w' = trace w ++ teardown_events d (surface w) ->
  teardowns w' = S (teardowns w).
Proof.
  intros Ht. rewrite (teardowns_app _ _ _ Ht), teardown_events_freed_once. lia.
Qed.

(** The three operations on an existing surface, as equations. *)
Lemma setIsCurrent_true_alive d (w : World I) :
  alive w = true ->
  setIsCurrent d true w = Done tt (with_count (mCurrentCount (surface w) + 1) w).
Proof. intros Ha. unfold setIsCurrent, with_count. monad. rewrite Ha. reflexivity. Qed.

Lemma setIsCurrent_false_alive d (w : World I) :
  alive w = true ->
  setIsCurrent d false w =
    if 0 <? mCurrentCount (surface w)
    then
      if (mCurrentCount (surface w) - 1 =? 0) && mDestroyed (surface w)
      then destroy d (with_count (mCurrentCount (surface w) - 1) w)
      else Done tt (with_count (mCurrentCount (surface w) - 1) w)
    else Crash AssertionFailure w.
Proof.
  intros Ha. unfold setIsCurrent, with_count. monad. rewrite Ha. simpl.
  destruct (0 <? mCurrentCount (surface w)); [|reflexivity].
  rewrite Ha. simpl.
  destruct ((mCurrentCount (surface w) - 1 =? 0) && mDestroyed (surface w));
    reflexivity.
Qed.

Lemma onDestroy_alive d (w : World I) :
  alive w = true ->
  onDestroy d w =
    if mCurrentCount (surface w) =? 0
    then destroy d (with_destroyed w)
    else Done tt (with_destroyed w).
Proof.
  intros Ha. unfold onDestroy, with_destroyed. monad. rewrite Ha. simpl.
  destruct (mCurrentCount (surface w) =? 0); reflexivity.
Qed.

(** Any operation on a surface that no longer exists is a fault. *)
Lemma step_dead d o (w : World I) :
  alive w = false -> step d o w = Crash UseAfterFree w.
Proof.
  intros Ha. destruct o as [[|]|]; unfold step, setIsCurrent, onDestroy; monad;
    rewrite Ha; reflexivity.
Qed.

Lemma run_cons d o rest (w : World I) :
  run d (o :: rest) w =
    match step d o w with
    | Done _ w' => run d rest w'
    | Crash f w' => Crash f w'
    end.
Proof. reflexivity. Qed.

Lemma run_dead d ops (w : World I) :
  alive w = false ->
  run d ops w = match ops with [] => Done tt w | _ :: _ => Crash UseAfterFree w end.
Proof.
  intros Ha. destruct ops as [|o rest]; [reflexivity|].
  rewrite run_cons, step_dead by exact Ha. reflexivity.
Qed.

Lemma net_count_cons c o rest :
  net_count c (o :: rest) = net_count (net_count c [o]) rest.
Proof. destruct o as [[|]|]; reflexivity. Qed.

Lemma never_below_zero_cons c o rest :
  never_below_zero c (o :: rest) =
    never_below_zero c [o] && never_below_zero (net_count c [o]) rest.
Proof.
  destruct o as [[|]|]; simpl; rewrite ?andb_true_r; reflexivity.
Qed.

Lemma never_below_zero_app c ops1 ops2 :
  never_below_zero c (ops1 ++ ops2) = true -> never_below_zero c ops1 = true.
Proof.
  revert c. induction ops1 as [|o rest IH]; intros c; [reflexivity|].
  rewrite <- app_comm_cons.
  rewrite (never_below_zero_cons c o (rest ++ ops2)), (never_below_zero_cons c o rest).
  intros [Ho Hr]%andb_true_iff. rewrite Ho. simpl. exact (IH _ Hr).
Qed.

Lemma step_alive d o (w : World I) :
  alive w = true -> step_result o w (step d o w).
Proof.
  intros Ha. destruct o as [[|]|]; cbn [step].
  - rewrite setIsCurrent_true_alive by exact Ha.
    apply StepLive; simpl; auto.
  - rewrite setIsCurrent_false_alive by exact Ha.
    destruct (0 <? mCurrentCount (surface w)) eqn:Hpos.
    + destruct ((mCurrentCount (surface w) - 1 =? 0) && mDestroyed (surface w)) eqn:Hc.
      * apply andb_true_iff in Hc as [Hz Hd]. apply Z.eqb_eq in Hz.
        destruct (destroy_alive d (with_count (mCurrentCount (surface w) - 1) w) Ha)
          as (w' & -> & Ha' & Ht & _).
        apply StepTeardown; simpl; auto.
        -- apply (destroy_teardowns _ _ _ Ht).
        -- rewrite Hpos. reflexivity.
      * apply StepLive; simpl; auto. rewrite Hpos. reflexivity.
    + apply StepAssert; [reflexivity|]. apply Z.ltb_ge in Hpos. exact Hpos.
  - rewrite onDestroy_alive by exact Ha.
    destruct (mCurrentCount (surface w) =? 0) eqn:Hz.
    + apply Z.eqb_eq in Hz.
      destruct (destroy_alive d (with_destroyed w) Ha) as (w' & -> & Ha' & Ht & _).
      apply StepTeardown; simpl; auto.
      apply (destroy_teardowns _ _ _ Ht).
    + apply StepLive; simpl; auto.
Qed.

(** No run tears an existing surface down more than once. *)
Lemma run_teardowns_le d ops (w : World I) :
  alive w = true ->
  (teardowns (final (run d ops w)) <= S (teardowns w))%nat.
Proof.
  revert w. induction ops as [|o rest IH]; intros w Ha; [simpl; lia|].
  rewrite run_cons.
  destruct (step_alive d o w Ha) as [w1 Ha1 Ht _ _ _|w1 Ha1 Ht _ _ _|_ _].
  - specialize (IH w1 Ha1). unfold teardowns in *. rewrite Ht in IH. exact IH.
  - rewrite run_dead by exact Ha1. destruct rest; simpl; lia.
  - simpl. lia.
Qed.

(** A run that returns either left the surface alone or tore it down at
    its last operation, with the flag set and the count at zero. *)
Lemma run_done_cases d ops (w w' : World I) :
  alive w = true ->
  run d ops w = Done tt w' ->
  (alive w' = true /\ trace w' = trace w)
  \/ (alive w' = false
      /\ teardowns w' = S (teardowns w)
      /\ (mDestroyed (surface w) = true \/ In OpOnDestroy ops)
      /\ net_count (mCurrentCount (surface w)) ops = 0).
Proof.
  revert w. induction ops as [|o rest IH]; intros w Ha Hrun.
  - injection Hrun as <-. left. split; [exact Ha|reflexivity].
  - rewrite run_cons in Hrun.
    pose proof (step_alive d o w Ha) as Hs.
    destruct Hs as [w1 Ha1 Ht Hc Hnb Hd1|w1 Ha1 Ht Hc Hnb Hd|_ _]; [| |discriminate].
    + destruct (IH w1 Ha1 Hrun) as [[Ha' Ht']|(Ha' & Hw' & Hd' & Hn')].
      * left. split; [exact Ha'|congruence].
      * right. split; [exact Ha'|]. split; [unfold teardowns in *; congruence|].
        split.
        -- destruct Hd' as [Hd'|Hd']; [|right; right; exact Hd'].
           destruct (Hd1 Hd') as [Hd | ->]; [left; exact Hd|right; left; reflexivity].
        -- rewrite net_count_cons, <- Hc. exact Hn'.
    + rewrite run_dead in Hrun by exact Ha1.
      destruct rest; [|discriminate]. injection Hrun as <-.
      right. split; [exact Ha1|]. split; [exact Ht|]. split; [|exact Hc].
      destruct Hd as [Hd | ->]; [left; exact Hd|right; left; reflexivity].
Qed.

(** If a run performed a teardown, some prefix of it returned with the
    surface torn down at that prefix's last operation. *)
Lemma run_teardown_point d ops (w : World I) :
  alive w = true ->
  teardowns (final (run d ops w)) <> teardowns w ->
  exists pre post w',
    ops = pre ++ post
    /\ run d pre w = Done tt w'
    /\ alive w' = false.
Proof.
  revert w. induction ops as [|o rest IH]; intros w Ha Hne; [simpl in Hne; lia|].
  rewrite run_cons in Hne.
  pose proof (step_alive d o w Ha) as Hs.
  remember (step d o w) as r eqn:Hr.
  destruct Hs as [w1 Ha1 Ht _ _ _|w1 Ha1 _ _ _ _|_ _].
  - assert (Ht' : teardowns w1 = teardowns w) by (unfold teardowns; congruence).
    destruct (IH w1 Ha1) as (pre & post & w' & -> & Hrun & Ha'); [congruence|].
    exists (o :: pre), post, w'. repeat split; [|exact Ha'].
    rewrite run_cons, <- Hr. exact Hrun.
  - exists [o], rest, w1. repeat split; [|exact Ha1].
    rewrite run_cons, <- Hr. reflexivity.
  - simpl in Hne. congruence.
Qed.

Lemma run_app d ops1 ops2 (w : World I) :
  run d (ops1 ++ ops2) w =
    match run d ops1 w with
    | Done _ w' => run d ops2 w'
    | Crash f w' => Crash f w'
    end.
Proof.
  revert w. induction ops1 as [|o rest IH]; intros w; [reflexivity|].
  rewrite <- app_comm_cons, !run_cons.
  destruct (step d o w); [apply IH|reflexivity].
Qed.

(** Decrements that stop short of zero only lower the count. *)
Lemma run_decrements d (n : nat) (w : World I) :
  alive w = true ->
  Z.of_nat n < mCurrentCount (surface w) ->
  run d (repeat (OpSetIsCurrent false) n) w =
    Done tt (with_count (mCurrentCount (surface w) - Z.of_nat n) w).
Proof.
  revert w. induction n as [|n IH]; intros w Ha Hlt.
  - simpl. unfold mret, M_ret, with_count. rewrite Z.sub_0_r.
    destruct w as [s a ts tr], s; reflexivity.
  - cbn [repeat]. rewrite run_cons. cbn [step].
    rewrite setIsCurrent_false_alive by exact Ha.
    destruct (0 <? mCurrentCount (surface w)) eqn:Hpos; [|apply Z.ltb_ge in Hpos; lia].
    replace (mCurrentCount (surface w) - 1 =? 0) with false
      by (symmetry; apply Z.eqb_neq; lia).
    simpl. rewrite IH; simpl; [|exact Ha|lia].
    unfold with_count, set_mCurrentCount. simpl.
    replace (mCurrentCount (surface w) - 1 - Z.of_nat n)
      with (mCurrentCount (surface w) - Z.of_nat (S n)) by lia.
    reflexivity.
Qed.

(** The decrement from one to zero tears a destroyed surface down. *)
Lemma last_decrement d (w : World I) :
  alive w = true ->
  mCurrentCount (surface w) = 1 ->
  mDestroyed (surface w) = true ->
  exists w',
    setIsCurrent d false w = Done tt w'
    /\ alive w' = false
    /\ teardowns w' = S (teardowns w).
Proof.
  intros Ha Hc Hd. rewrite setIsCurrent_false_alive by exact Ha.
  rewrite Hc, Hd. simpl.
  destruct (destroy_alive d (with_count 0 w) Ha) as (w' & Hrun & Ha' & Ht & _).
  exists w'. split; [exact Hrun|]. split; [exact Ha'|].
  apply (destroy_teardowns _ _ _ Ht).
Qed.

(** A destroyed surface with count [n + 1] survives up to [n] decrements
    and is torn down by the next one. *)
Lemma pending_teardown d (n : nat) (w : World I) :
  alive w = true ->
  mDestroyed (surface w) = true ->
  mCurrentCount (surface w) = Z.of_nat (S n) ->
  (forall k : nat, (k <= n)%nat ->
     exists w',
       run d (repeat (OpSetIsCurrent false) k) w = Done tt w'
       /\ alive w' = true
       /\ teardowns w' = teardowns w)
  /\ exists w',
       run d (repeat (OpSetIsCurrent false) (S n)) w = Done tt w'
       /\ alive w' = false
       /\ teardowns w' = S (teardowns w).
Proof.
  intros Ha Hd Hc. split.
  - intros k Hk. eexists. split; [apply run_decrements; [exact Ha|lia]|].
    split; [exact Ha|reflexivity].
  - cbn [repeat]. rewrite repeat_cons, run_app, run_decrements; [|exact Ha|lia].
    rewrite run_cons. cbn [step].
    destruct (last_decrement d (with_count (mCurrentCount (surface w) - Z.of_nat n) w))
      as (w' & Hrun & Ha' & Ht); [exact Ha|simpl; lia|exact Hd|].
    exists w'. rewrite Hrun. split; [reflexivity|]. split; [exact Ha'|exact Ht].
Qed.

(** *** Claims about the lifetime *)

(** C1.  Start from a surface with count zero and the destroyed flag
    clear, and take any sequence of setIsCurrent(true), setIsCurrent(false)
    and onDestroy in which no setIsCurrent(false) meets a count of zero.
    Whenever a prefix of the sequence has run and the surface is torn down
    after it, that prefix contains onDestroy and its increments and
    decrements cancel.  And if the sequence performs a teardown at all, it
    does so at the end of such a prefix. *)
Theorem teardown_waits_for_onDestroy_and_zero_count (d : Display) (s : Surface I) :
  mCurrentCount s = 0 ->
  mDestroyed s = false ->
  (forall (pre post : list Op) (w : World I),
     never_below_zero 0 (pre ++ post) = true ->
     run d pre (new_world s) = Done tt w ->
     alive w = false \/ teardowns w <> 0%nat ->
     In OpOnDestroy pre /\ net_count 0 pre = 0)
  /\ (forall ops : list Op,
        never_below_zero 0 ops = true ->
        teardowns (final (run d ops (new_world s))) <> 0%nat ->
        exists (pre post : list Op) (w : World I),
          ops = pre ++ post
          /\ run d pre (new_world s) = Done tt w
          /\ alive w = false
          /\ In OpOnDestroy pre
          /\ net_count 0 pre = 0).
Proof.
  intros Hc Hd.
  assert (Hpoint : forall pre w,
             run d pre (new_world s) = Done tt w ->
             alive w = false \/ teardowns w <> 0%nat ->
             In OpOnDestroy pre /\ net_count 0 pre = 0).
  { intros pre w Hrun Htorn.
    destruct (run_done_cases d pre (new_world s) w eq_refl Hrun)
      as [[Ha Ht]|(_ & _ & Hdes & Hnet)].
    - exfalso. destruct Htorn as [Hdead|Hn]; [congruence|].
      apply Hn. unfold teardowns. rewrite Ht. reflexivity.
    - simpl in Hdes, Hnet. rewrite Hc in Hnet. rewrite Hd in Hdes.
      destruct Hdes as [?|Hin]; [discriminate|]. split; assumption. }
  split.
  - intros pre post w _ Hrun Htorn. exact (Hpoint pre w Hrun Htorn).
  - intros ops _ Hne.
    destruct (run_teardown_point d ops (new_world s) eq_refl Hne)
      as (pre & post & w & -> & Hrun & Ha).
    exists pre, post, w. split; [reflexivity|]. split; [exact Hrun|].
    split; [exact Ha|]. apply (Hpoint pre w Hrun). left. exact Ha.
Qed.

(** C2.  Teardown happens exactly once.  From a surface that exists, no
    sequence of operations performs it twice; onDestroy with a positive
    count followed by decrements performs none while the count is positive
    and exactly one at the decrement that reaches zero; onDestroy with count
    zero performs exactly one at once. *)
Theorem teardown_exactly_once (d : Display) (w : World I) :
  alive w = true ->
  (forall ops : list Op,
     (teardowns (final (run d ops w)) <= S (teardowns w))%nat)
  /\ (forall n : nat,
        mCurrentCount (surface w) = Z.of_nat (S n) ->
        (forall k : nat, (k <= n)%nat ->
           exists w',
             run d (OpOnDestroy :: repeat (OpSetIsCurrent false) k) w = Done tt w'
             /\ alive w' = true
             /\ teardowns w' = teardowns w)
        /\ exists w',
             run d (OpOnDestroy :: repeat (OpSetIsCurrent false) (S n)) w
               = Done tt w'
             /\ alive w' = false
             /\ teardowns w' = S (teardowns w))
  /\ (mCurrentCount (surface w) = 0 ->
      exists w',
        onDestroy d w = Done tt w'
        /\ alive w' = false
        /\ teardowns w' = S (teardowns w)).
Proof.
  intros Ha. split; [|split].
  - intros ops. apply run_teardowns_le, Ha.
  - intros n Hc.
    assert (Hstep : forall rest,
               run d (OpOnDestroy :: rest) w = run d rest (with_destroyed w)).
    { intros rest. rewrite run_cons. cbn [step].
      rewrite onDestroy_alive by exact Ha.
      replace (mCurrentCount (surface w) =? 0) with false
        by (symmetry; apply Z.eqb_neq; lia).
      reflexivity. }
    destruct (pending_teardown d n (with_destroyed w) Ha eq_refl Hc) as [Hlive Hlast].
    split.
    + intros k Hk. rewrite Hstep. apply Hlive, Hk.
    + rewrite Hstep. exact Hlast.
  - intros Hc. rewrite onDestroy_alive by exact Ha.
    rewrite Hc. simpl.
    destruct (destroy_alive d (with_destroyed w) Ha) as (w' & Hrun & Ha' & Ht & _).
    exists w'. split; [exact Hrun|]. split; [exact Ha'|].
    apply (destroy_teardowns _ _ _ Ht).
Qed.

(** C9.  setIsCurrent(true) on an existing surface adds one to the count
    whatever the destroyed flag says, makes no call and leaves the surface
    in place.  A surface whose flag is set and whose count is [n] can thus
    be made current again: it then survives [n] decrements and is torn
    down by the next. *)
Theorem setIsCurrent_true_defers_teardown (d : Display) (w : World I) :
  alive w = true ->
  (exists w',
     setIsCurrent d true w = Done tt w'
     /\ alive w' = true
     /\ trace w' = trace w
     /\ sourced w' = sourced w
     /\ surface w' = set_mCurrentCount (mCurrentCount (surface w) + 1) (surface w))
  /\ (forall n : nat,
        mDestroyed (surface w) = true ->
        mCurrentCount (surface w) = Z.of_nat n ->
        (forall k : nat, (k <= n)%nat ->
           exists w',
             run d (OpSetIsCurrent true :: repeat (OpSetIsCurrent false) k) w
               = Done tt w'
             /\ alive w' = true
             /\ teardowns w' = teardowns w)
        /\ exists w',
             run d (OpSetIsCurrent true :: repeat (OpSetIsCurrent false) (S n)) w
               = Done tt w'
             /\ alive w' = false
             /\ teardowns w' = S (teardowns w)).
Proof.
  intros Ha. split.
  - exists (with_count (mCurrentCount (surface w) + 1) w).
    split; [apply setIsCurrent_true_alive, Ha|]. simpl. auto.
  - intros n Hd Hc.
    assert (Hstep : forall rest,
               run d (OpSetIsCurrent true :: rest) w
               = run d rest (with_count (mCurrentCount (surface w) + 1) w)).
    { intros rest. rewrite run_cons. cbn [step].
      rewrite setIsCurrent_true_alive by exact Ha. reflexivity. }
    destruct (pending_teardown d n (with_count (mCurrentCount (surface w) + 1) w))
      as [Hlive Hlast]; [exact Ha|exact Hd|simpl; lia|].
    split.
    + intros k Hk. rewrite Hstep. apply Hlive, Hk.
    + rewrite Hstep. exact Hlast.
Qed.

(** C3, as the code has it.  A teardown calls, in this order: the default
    framebuffer's destroyDefault, the backend's destroy, and then, inside
    the destructor run by [delete this], the release of a bound texture
    (the backend's releaseTexImage on the back buffer, then the texture's
    releaseTexImageFromSurface), the deletion of the framebuffer and of
    the backend, and the return of the surface's storage.  Each call is
    made only if its object is there; a bound texture no longer names the
    surface afterwards. *)
Theorem teardown_call_order (d : Display) (w : World I) :
  alive w = true ->
  exists w',
    destroy d w = Done tt w'
    /\ alive w' = false
    /\ trace w' = trace w ++ teardown_events d (surface w)
    /\ (forall (f : Framebuffer) (i : I) (t : Texture),
          mState_defaultFramebuffer (surface w) = Some f ->
          mImplementation (surface w) = Some i ->
          mTexture (surface w) = Some t ->
          teardown_events d (surface w) =
            [EvFramebufferDestroyDefault d;
             EvImplDestroy d;
             EvImplReleaseTexImage EGL.BACK_BUFFER;
             EvTextureReleaseTexImageFromSurface t;
             EvDeleteFramebuffer;
             EvDeleteImplementation;
             EvSurfaceFreed]
          /\ t ∉ sourced w').
Proof.
  intros Ha. destruct (destroy_alive d w Ha) as (w' & Hrun & Ha' & Ht & Hs).
  exists w'. split; [exact Hrun|]. split; [exact Ha'|]. split; [exact Ht|].
  intros f i t Hf Hi Htex. split.
  - unfold teardown_events. rewrite Hf, Hi, Htex. reflexivity.
  - rewrite Hs, Htex. intros [_ Hn]%elem_of_difference.
    apply Hn, elem_of_singleton. reflexivity.
Qed.

(** *** Claims about texture binding *)

(** C4.  bindTexImage with a texture already bound stops at its assertion
    before anything else happens: the backend is not called and the
    binding is not replaced.  With no texture bound and a backend that
    reports success, the texture is marked as sourced from the surface and
    recorded in [mTexture]; a backend error is returned as it is and
    nothing is bound. *)
Theorem bindTexImage_contract (t : Texture) (buffer : EGLint) (w : World I) :
  alive w = true ->
  (mTexture (surface w) <> None ->
   bindTexImage t buffer w = Crash AssertionFailure w)
  /\ (forall i : I,
        mTexture (surface w) = None ->
        mImplementation (surface w) = Some i ->
        isError (fst (impl_bindTexImage t buffer i)) = false ->
        exists w',
          bindTexImage t buffer w = Done (mkError EGL.SUCCESS) w'
          /\ alive w' = true
          /\ mTexture (surface w') = Some t
          /\ t ∈ sourced w'
          /\ trace w' = trace w ++ [EvImplBindTexImage t buffer;
                                    EvTextureBindTexImageFromSurface t])
  /\ (forall i : I,
        mTexture (surface w) = None ->
        mImplementation (surface w) = Some i ->
        isError (fst (impl_bindTexImage t buffer i)) = true ->
        exists w',
          bindTexImage t buffer w = Done (fst (impl_bindTexImage t buffer i)) w'
          /\ alive w' = true
          /\ mTexture (surface w') = None
          /\ sourced w' = sourced w
          /\ trace w' = trace w ++ [EvImplBindTexImage t buffer]).
Proof.
  intros Ha. destruct w as [s a ts tr]. simpl in Ha. subst a.
  unfold bindTexImage, Texture_bindTexImageFromSurface, call_impl.
  split; [|split]; simpl.
  - intros Hb. monad. destruct (mTexture s); [reflexivity|congruence].
  - intros i Ht Hi Herr. monad. rewrite Ht. simpl. rewrite Hi. simpl.
    rewrite Herr. eexists. split; [reflexivity|]. simpl.
    split; [reflexivity|]. split; [reflexivity|]. split.
    + apply elem_of_union. left. apply elem_of_singleton. reflexivity.
    + rewrite <- app_assoc. reflexivity.
  - intros i Ht Hi Herr. monad. rewrite Ht. simpl. rewrite Hi. simpl.
    rewrite Herr. eexists. split; [reflexivity|]. simpl. auto.
Qed.

(** C5.  releaseTexImage asks the backend first and returns its error
    untouched if there is one.  After a successful backend call it
    requires a bound texture: with none bound (as when no bindTexImage
    succeeded before) it stops at its assertion; with texture [t] bound it
    clears the texture's back-reference and then [mTexture]. *)
Theorem releaseTexImage_contract (buffer : EGLint) (w : World I) (i : I) :
  alive w = true ->
  mImplementation (surface w) = Some i ->
  (isError (fst (impl_releaseTexImage buffer i)) = true ->
   exists w',
     releaseTexImage buffer w = Done (fst (impl_releaseTexImage buffer i)) w'
     /\ mTexture (surface w') = mTexture (surface w)
     /\ sourced w' = sourced w
     /\ trace w' = trace w ++ [EvImplReleaseTexImage buffer])
  /\ (isError (fst (impl_releaseTexImage buffer i)) = false ->
      mTexture (surface w) = None ->
      exists w',
        releaseTexImage buffer w = Crash AssertionFailure w'
        /\ trace w' = trace w ++ [EvImplReleaseTexImage buffer])
  /\ (forall t : Texture,
        isError (fst (impl_releaseTexImage buffer i)) = false ->
        mTexture (surface w) = Some t ->
        exists w',
          releaseTexImage buffer w = Done (mkError EGL.SUCCESS) w'
          /\ alive w' = true
          /\ mTexture (surface w') = None
          /\ (t ∉ sourced w')
          /\ trace w' = trace w ++ [EvImplReleaseTexImage buffer;
                                    EvTextureReleaseTexImageFromSurface t]).
Proof.
  intros Ha Hi. destruct w as [s a ts tr]. simpl in Ha, Hi. subst a.
  unfold releaseTexImage, Texture_releaseTexImageFromSurface, call_impl.
  split; [|split]; simpl.
  - intros Herr. monad. rewrite Hi. simpl. rewrite Herr.
    eexists. split; [reflexivity|]. simpl. auto.
  - intros Herr Ht. monad. rewrite Hi. simpl. rewrite Herr. simpl.
    rewrite Ht. simpl. eexists. split; reflexivity.
  - intros t Herr Ht. monad. rewrite Hi. simpl. rewrite Herr. simpl.
    rewrite Ht. simpl. eexists. split; [reflexivity|]. simpl.
    split; [reflexivity|]. split; [reflexivity|]. split.
    + intros [_ Hn]%elem_of_difference. apply Hn, elem_of_singleton. reflexivity.
    + rewrite <- app_assoc. reflexivity.
Qed.

End LifetimeProperties.

(** ** Construction and queries *)

Section QueryProperties.

Context {I : Type} `{SurfaceImpl I}.

Variable ptr_bits : Z.

(** C6.  On a surface built from [attributes] and given backend [i],
    isPostSubBufferSupported returns 1 or 0, and it returns 1 exactly when
    the attribute EGL_POST_SUB_BUFFER_SUPPORTED_NV is EGL_TRUE and the
    backend reports a non-zero value. *)
Theorem isPostSubBufferSupported_is_conjunction (surfaceType : EGLint)
    (config : Config) (attributes : gmap Z Z) (i : I) :
  exists r : EGLint,
    isPostSubBufferSupported
      (set_mImplementation (Some i)
         (Surface_ctor ptr_bits surfaceType config attributes)) = Some r
    /\ (r = 1 \/ r = 0)
    /\ (r = 1 <->
        AttributeMap_get attributes EGL.POST_SUB_BUFFER_SUPPORTED_NV EGL.FALSE
          = EGL.TRUE
        /\ impl_isPostSubBufferSupported i <> 0).
Proof.
  unfold isPostSubBufferSupported, int_to_bool. simpl.
  destruct (AttributeMap_get attributes EGL.POST_SUB_BUFFER_SUPPORTED_NV EGL.FALSE
              =? EGL.TRUE) eqn:Hreq; simpl.
  - apply Z.eqb_eq in Hreq.
    destruct (impl_isPostSubBufferSupported i =? 0) eqn:Hsup; simpl.
    + apply Z.eqb_eq in Hsup. exists 0. split; [reflexivity|].
      split; [right; reflexivity|]. split; [discriminate|]. intros [_ Hn]. contradiction.
    + apply Z.eqb_neq in Hsup. exists 1. split; [reflexivity|].
      split; [left; reflexivity|]. split; [intros _; split; assumption|reflexivity].
  - apply Z.eqb_neq in Hreq. exists 0. split; [reflexivity|].
    split; [right; reflexivity|]. split; [discriminate|]. intros [Hy _]. contradiction.
Qed.

(** C7, as the code has it.  On a fixed-size surface getWidth and
    getHeight return the width and height attributes converted to size_t
    and then to EGLint, whatever the backend reports; these are the
    attributes themselves whenever they are EGLint values.  On a surface
    that is not fixed-size they return what the backend reports. *)
Theorem getWidth_getHeight_fixed_or_backend (surfaceType : EGLint)
    (config : Config) (attributes : gmap Z Z) (i : I) :
  32 <= ptr_bits ->
  let s := set_mImplementation (Some i)
             (Surface_ctor ptr_bits surfaceType config attributes) in
  let width := AttributeMap_get attributes EGL.WIDTH 0 in
  let height := AttributeMap_get attributes EGL.HEIGHT 0 in
  (AttributeMap_get attributes EGL.FIXED_SIZE_ANGLE EGL.FALSE = EGL.TRUE ->
   getWidth s = Some (to_EGLint (to_size_t ptr_bits width))
   /\ getHeight s = Some (to_EGLint (to_size_t ptr_bits height))
   /\ (is_EGLint width -> getWidth s = Some width)
   /\ (is_EGLint height -> getHeight s = Some height))
  /\ (AttributeMap_get attributes EGL.FIXED_SIZE_ANGLE EGL.FALSE <> EGL.TRUE ->
      getWidth s = Some (impl_getWidth i)
      /\ getHeight s = Some (impl_getHeight i)).
Proof.
  intros Hp s width height. unfold getWidth, getHeight. subst s. simpl. split.
  - intros Hfixed. apply Z.eqb_eq in Hfixed. rewrite Hfixed.
    split; [reflexivity|]. split; [reflexivity|].
    split; intros Hr; f_equal; apply to_EGLint_wrap_unsigned; assumption.
  - intros Hfree. apply Z.eqb_neq in Hfree. rewrite Hfree.
    split; reflexivity.
Qed.

(** C8.  A surface constructed with the window kind has texture format
    and texture target EGL_NO_TEXTURE for every attribute map, and the
    constructed surface does not depend on what the map holds for
    EGL_TEXTURE_FORMAT and EGL_TEXTURE_TARGET.  Any other kind reads both
    attributes, converted to EGLenum, with EGL_NO_TEXTURE as the value of
    an absent attribute. *)
Theorem window_surface_has_no_texture (config : Config) (attributes : gmap Z Z) :
  (getTextureFormat (Surface_ctor (I := I) ptr_bits EGL.WINDOW_BIT config attributes)
     = EGL.NO_TEXTURE
   /\ getTextureTarget (Surface_ctor (I := I) ptr_bits EGL.WINDOW_BIT config attributes)
     = EGL.NO_TEXTURE)
  /\ (forall format target : EGLAttrib,
        Surface_ctor (I := I) ptr_bits EGL.WINDOW_BIT config
          (<[EGL.TEXTURE_FORMAT := format]>
             (<[EGL.TEXTURE_TARGET := target]> attributes))
        = Surface_ctor ptr_bits EGL.WINDOW_BIT config
            (delete EGL.TEXTURE_FORMAT (delete EGL.TEXTURE_TARGET attributes)))
  /\ (forall surfaceType : EGLint,
        surfaceType <> EGL.WINDOW_BIT ->
        let s := Surface_ctor (I := I) ptr_bits surfaceType config attributes in
        getTextureFormat s
          = to_EGLenum
              (AttributeMap_get attributes EGL.TEXTURE_FORMAT EGL.NO_TEXTURE)
        /\ getTextureTarget s
          = to_EGLenum
              (AttributeMap_get attributes EGL.TEXTURE_TARGET EGL.NO_TEXTURE)
        /\ (attributes !! EGL.TEXTURE_FORMAT = None ->
            getTextureFormat s = EGL.NO_TEXTURE)
        /\ (attributes !! EGL.TEXTURE_TARGET = None ->
            getTextureTarget s = EGL.NO_TEXTURE)).
Proof.
  split; [split; reflexivity|]. split.
  - intros format target. unfold Surface_ctor, AttributeMap_get.
    change (EGL.WINDOW_BIT =? EGL.WINDOW_BIT) with true. cbn [negb].
    repeat (rewrite lookup_insert_ne by (vm_compute; discriminate)).
    repeat (rewrite lookup_delete_ne by (vm_compute; discriminate)).
    reflexivity.
  - intros surfaceType Hty s. subst s.
    unfold getTextureFormat, getTextureTarget, Surface_ctor. cbn [mTextureFormat mTextureTarget].
    apply Z.eqb_neq in Hty. rewrite Hty. cbn [negb].
    split; [reflexivity|]. split; [reflexivity|].
    unfold AttributeMap_get, EGLAttrib. split; intros ->; reflexivity.
Qed.

End QueryProperties.

(** ** FetchOptions coding *)

Section CodingProperties.

Variable ReferrerPolicy : Type.

Context `{Coder Destination.t} `{Coder Mode.t} `{Coder Credentials.t}
        `{Coder Cache.t} `{Coder Redirect.t} `{Coder ReferrerPolicy}
        `{Coder WTFString} `{Coder bool}.

Ltac split_gets H :=
  repeat (match type of H with
          | context [@get ?T ?C ?d] =>
              destruct (@get T C d) as [[?|] ?] eqn:?
          end; try discriminate H).

(** [decode] returns true exactly when the eight field decodes succeed
    one after the other, and then hands out what they read. *)
Lemma decode_true_iff (decoder : list Byte.byte)
    (out o' : FetchOptions ReferrerPolicy) (d' : list Byte.byte) :
  decode decoder out = (true, o', d') <-> all_fields_decode decoder o' d'.
Proof.
  split.
  - intros Hdec. unfold decode in Hdec. split_gets Hdec.
    injection Hdec as <- <-. unfold all_fields_decode. simpl.
    repeat eexists; eassumption.
  - intros (d1 & d2 & d3 & d4 & d5 & d6 & d7 & E1 & E2 & E3 & E4 & E5 & E6 & E7 & E8).
    unfold decode. rewrite E1, E2, E3, E4, E5, E6, E7, E8.
    destruct o'. reflexivity.
Qed.

(** A failed [decode] does not touch its [options] argument. *)
Lemma decode_false_unchanged (decoder : list Byte.byte)
    (out : FetchOptions ReferrerPolicy) :
  fst (fst (decode decoder out)) = false -> snd (fst (decode decoder out)) = out.
Proof.
  unfold decode.
  repeat (match goal with
          | |- context [@get ?T ?C ?d] => destruct (@get T C d) as [[?|] ?]
          end; try reflexivity).
  simpl. discriminate.
Qed.

(** C10.  With an encoder and a decoder that agree on each field type,
    decoding what [encode] wrote returns true and yields the encoded
    options, field for field, leaving the decoder just behind them.  For
    any decoder whatever: [decode] returns true only if every field
    decodes, and when it returns false the [options] argument is what it
    was before the call. *)
Theorem decode_inverts_encode :
  lawful Destination.t -> lawful Mode.t -> lawful Credentials.t ->
  lawful Cache.t -> lawful Redirect.t -> lawful ReferrerPolicy ->
  lawful WTFString -> lawful bool ->
  (forall (options out : FetchOptions ReferrerPolicy) (rest : list Byte.byte),
     decode (encode options [] ++ rest) out = (true, options, rest)
     /\ destination (snd (fst (decode (encode options [] ++ rest) out)))
          = destination options
     /\ mode (snd (fst (decode (encode options [] ++ rest) out))) = mode options
     /\ credentials (snd (fst (decode (encode options [] ++ rest) out)))
          = credentials options
     /\ cache (snd (fst (decode (encode options [] ++ rest) out))) = cache options
     /\ redirect (snd (fst (decode (encode options [] ++ rest) out)))
          = redirect options
     /\ referrerPolicy (snd (fst (decode (encode options [] ++ rest) out)))
          = referrerPolicy options
     /\ integrity (snd (fst (decode (encode options [] ++ rest) out)))
          = integrity options
     /\ keepAlive (snd (fst (decode (encode options [] ++ rest) out)))
          = keepAlive options)
  /\ (forall (decoder : list Byte.byte) (out o' : FetchOptions ReferrerPolicy)
             (d' : list Byte.byte),
        decode decoder out = (true, o', d') <-> all_fields_decode decoder o' d')
  /\ (forall (decoder : list Byte.byte) (out : FetchOptions ReferrerPolicy),
        fst (fst (decode decoder out)) = false ->
        snd (fst (decode decoder out)) = out).
Proof.
  intros L1 L2 L3 L4 L5 L6 L7 L8. split; [|split].
  - intros options out rest.
    assert (Hdec : decode (encode options [] ++ rest) out = (true, options, rest)).
    { unfold encode. cbn [app]. rewrite <- !app_assoc.
      unfold decode. rewrite L1, L2, L3, L4, L5, L6, L7, L8.
      destruct options. reflexivity. }
    rewrite Hdec. simpl. repeat split.
  - intros decoder out o' d'. apply decode_true_iff.
  - intros decoder out. apply decode_false_unchanged.
Qed.

End CodingProperties.

(** *** The byte-level coders are lawful *)

Lemma Destination_coder_lawful : lawful Destination.t.
Proof. intros v rest. destruct v; reflexivity. Qed.

Lemma Mode_coder_lawful : lawful Mode.t.
Proof. intros v rest. destruct v; reflexivity. Qed.

Lemma Credentials_coder_lawful : lawful Credentials.t.
Proof. intros v rest. destruct v; reflexivity. Qed.

Lemma Cache_coder_lawful : lawful Cache.t.
Proof. intros v rest. destruct v; reflexivity. Qed.

Lemma Redirect_coder_lawful : lawful Redirect.t.
Proof. intros v rest. destruct v; reflexivity. Qed.

Lemma ReferrerPolicy_coder_lawful : lawful ReferrerPolicy.t.
Proof. intros v rest. destruct v; reflexivity. Qed.

Lemma bool_coder_lawful : lawful bool.
Proof. intros v rest. destruct v; reflexivity. Qed.

Lemma put_chars_length (s : string) :
  length (put_chars s) = (2 * String.length s + 1)%nat.
Proof. induction s as [|c s IH]; simpl; [reflexivity|]. rewrite IH. lia. Qed.

Lemma get_put_chars (s : string) (rest : list Byte.byte) (fuel : nat) :
  (String.length s <= fuel)%nat ->
  get_chars fuel (put_chars s ++ rest) = (Some s, rest).
Proof.
  revert fuel. induction s as [|c s IH]; intros fuel Hfuel.
  - destruct fuel; reflexivity.
  - destruct fuel as [|fuel]; [simpl in Hfuel; lia|].
    simpl in Hfuel. simpl. rewrite IH by lia.
    rewrite ascii_of_byte_of_ascii. reflexivity.
Qed.

Lemma WTFString_coder_lawful : lawful WTFString.
Proof.
  intros [s|] rest; [|reflexivity].
  simpl. rewrite get_put_chars; [reflexivity|].
  rewrite length_app, put_chars_length. lia.
Qed.

(** ** The claims on concrete inputs *)

(** C3 as stated fails: on a pbuffer surface with a framebuffer, a backend
    and texture 5 bound, the texture is released after the framebuffer's
    destroyDefault and the backend's destroy, not before them. *)
Lemma teardown_releases_texture_last :
  exists w',
    destroy 0%nat bound_pbuffer = Done tt w'
    /\ trace w' =
         trace bound_pbuffer
         ++ [EvFramebufferDestroyDefault 0%nat;
             EvImplDestroy 0%nat;
             EvImplReleaseTexImage EGL.BACK_BUFFER;
             EvTextureReleaseTexImageFromSurface 5%positive;
             EvDeleteFramebuffer;
             EvDeleteImplementation;
             EvSurfaceFreed]
    /\ texture_released_first 0%nat 5%positive (trace w') = false
    /\ precedes (EvImplDestroy 0%nat)
         (EvTextureReleaseTexImageFromSurface 5%positive) (trace w') = true.
Proof.
  eexists. split; [vm_compute; reflexivity|].
  split; [reflexivity|]. split; reflexivity.
Qed.

(** C7 as stated fails: with a pointer width of 64 bits, a fixed-size
    surface whose width attribute is 2^32 + 800 reports the width 800. *)
Lemma getWidth_truncates_wide_attribute :
  AttributeMap_get fixed_wide EGL.FIXED_SIZE_ANGLE EGL.FALSE = EGL.TRUE
  /\ AttributeMap_get fixed_wide EGL.WIDTH 0 = 2 ^ 32 + 800
  /\ getWidth (WindowSurface_ctor 64 example_config 1 fixed_wide) = Some 800
  /\ getWidth (WindowSurface_ctor 64 example_config 1 fixed_wide)
       <> Some (AttributeMap_get fixed_wide EGL.WIDTH 0).
Proof.
  split; [reflexivity|]. split; [reflexivity|]. split; [reflexivity|].
  vm_compute. discriminate.
Qed.

(** C1 on a window surface: made current, destroyed while current, then
    released. *)
Lemma teardown_waits_witness :
  In OpOnDestroy [OpSetIsCurrent true; OpOnDestroy; OpSetIsCurrent false]
  /\ net_count 0 [OpSetIsCurrent true; OpOnDestroy; OpSetIsCurrent false] = 0.
Proof.
  eapply (proj1 (teardown_waits_for_onDestroy_and_zero_count 0%nat window_surface
                   eq_refl eq_refl)
            [OpSetIsCurrent true; OpOnDestroy; OpSetIsCurrent false] []).
  - reflexivity.
  - vm_compute. reflexivity.
  - left. reflexivity.
Defined.

(** C2 on a window surface: with count zero, and with count two. *)
Lemma teardown_exactly_once_witness :
  (teardowns (final (run 0%nat [OpOnDestroy; OpOnDestroy]
                       (new_world window_surface))) <= 1)%nat
  /\ (exists w',
        run 0%nat (OpOnDestroy :: repeat (OpSetIsCurrent false) 2)
          (with_count 2 (new_world window_surface)) = Done tt w'
        /\ alive w' = false
        /\ teardowns w' = 1%nat)
  /\ (exists w',
        onDestroy 0%nat (new_world window_surface) = Done tt w'
        /\ alive w' = false
        /\ teardowns w' = 1%nat).
Proof.
  split; [|split].
  - exact (proj1 (teardown_exactly_once 0%nat (new_world window_surface) eq_refl)
             [OpOnDestroy; OpOnDestroy]).
  - exact (proj2 (proj1 (proj2 (teardown_exactly_once 0%nat
                                  (with_count 2 (new_world window_surface)) eq_refl))
                    1%nat eq_refl)).
  - exact (proj2 (proj2 (teardown_exactly_once 0%nat (new_world window_surface)
                           eq_refl)) eq_refl).
Defined.

(** C9 on a window surface that is destroyed while its count is one. *)
Lemma setIsCurrent_true_defers_teardown_witness :
  exists w',
    run 0%nat (OpSetIsCurrent true :: repeat (OpSetIsCurrent false) 2)
      (with_destroyed (with_count 1 (new_world window_surface))) = Done tt w'
    /\ alive w' = false
    /\ teardowns w' = 1%nat.
Proof.
  exact (proj2 (proj2 (setIsCurrent_true_defers_teardown 0%nat
                         (with_destroyed (with_count 1 (new_world window_surface)))
                         eq_refl)
                  1%nat eq_refl eq_refl)).
Defined.

(** C3, amended, on the pbuffer surface with texture 5 bound. *)
Lemma teardown_call_order_witness :
  exists w',
    destroy 0%nat bound_pbuffer = Done tt w'
    /\ alive w' = false
    /\ trace w' = trace bound_pbuffer ++ teardown_events 0%nat (surface bound_pbuffer)
    /\ teardown_events 0%nat (surface bound_pbuffer) =
         [EvFramebufferDestroyDefault 0%nat;
          EvImplDestroy 0%nat;
          EvImplReleaseTexImage EGL.BACK_BUFFER;
          EvTextureReleaseTexImageFromSurface 5%positive;
          EvDeleteFramebuffer;
          EvDeleteImplementation;
          EvSurfaceFreed]
    /\ 5%positive ∉ sourced w'.
Proof.
  destruct (teardown_call_order 0%nat bound_pbuffer eq_refl)
    as (w' & Hrun & Ha & Ht & Hall).
  exists w'. split; [exact Hrun|]. split; [exact Ha|]. split; [exact Ht|].
  eapply Hall; reflexivity.
Defined.

(** C4 on a fresh window surface, and on the pbuffer surface that already
    has texture 5 bound. *)
Lemma bindTexImage_contract_witness :
  bindTexImage 7%positive EGL.BACK_BUFFER bound_pbuffer
    = Crash AssertionFailure bound_pbuffer
  /\ exists w',
       bindTexImage 7%positive EGL.BACK_BUFFER (new_world window_surface)
         = Done (mkError EGL.SUCCESS) w'
       /\ alive w' = true
       /\ mTexture (surface w') = Some 7%positive
       /\ 7%positive ∈ sourced w'
       /\ trace w' = trace (new_world window_surface)
                       ++ [EvImplBindTexImage 7%positive EGL.BACK_BUFFER;
                           EvTextureBindTexImageFromSurface 7%positive].
Proof.
  split.
  - apply (proj1 (bindTexImage_contract 7%positive EGL.BACK_BUFFER bound_pbuffer
                    eq_refl)).
    simpl. discriminate.
  - eapply (proj1 (proj2 (bindTexImage_contract 7%positive EGL.BACK_BUFFER
                            (new_world window_surface) eq_refl)));
      reflexivity.
Defined.

(** C5 on the pbuffer surface with texture 5 bound, and on a fresh window
    surface, whose backend reports success. *)
Lemma releaseTexImage_contract_witness :
  (exists w',
     releaseTexImage EGL.BACK_BUFFER bound_pbuffer = Done (mkError EGL.SUCCESS) w'
     /\ alive w' = true
     /\ mTexture (surface w') = None
     /\ (5%positive ∉ sourced w')
     /\ trace w' = trace bound_pbuffer
                     ++ [EvImplReleaseTexImage EGL.BACK_BUFFER;
                         EvTextureReleaseTexImageFromSurface 5%positive])
  /\ exists w',
       releaseTexImage EGL.BACK_BUFFER (new_world window_surface)
         = Crash AssertionFailure w'
       /\ trace w' = trace (new_world window_surface)
                       ++ [EvImplReleaseTexImage EGL.BACK_BUFFER].
Proof.
  split.
  - eapply (proj2 (proj2 (releaseTexImage_contract EGL.BACK_BUFFER bound_pbuffer
                            _ eq_refl eq_refl)));
      reflexivity.
  - eapply (proj1 (proj2 (releaseTexImage_contract EGL.BACK_BUFFER
                            (new_world window_surface) _ eq_refl eq_refl)));
      reflexivity.
Defined.

(** C7, amended, on a 64-bit platform with the attributes 800 by 600. *)
Lemma getWidth_getHeight_witness :
  getWidth (WindowSurface_ctor 64 example_config 1 fixed_800_600) = Some 800
  /\ getHeight (WindowSurface_ctor 64 example_config 1 fixed_800_600) = Some 600.
Proof.
  assert (H800 : is_EGLint 800) by (unfold is_EGLint, in_signed; simpl; lia).
  assert (H600 : is_EGLint 600) by (unfold is_EGLint, in_signed; simpl; lia).
  assert (Hp : 32 <= 64) by lia.
  destruct (proj1 (getWidth_getHeight_fixed_or_backend 64 EGL.WINDOW_BIT
                     example_config fixed_800_600
                     (createWindowSurface example_config 1 fixed_800_600) Hp)
              eq_refl) as (_ & _ & Hw & Hh).
  split; [exact (Hw H800)|exact (Hh H600)].
Defined.

(** C8 on a pbuffer surface that asks for an RGBA 2D texture, and on one
    that does not. *)
Lemma window_surface_has_no_texture_witness :
  getTextureFormat
    (Surface_ctor (I := MockSurfaceImpl) 64 EGL.PBUFFER_BIT example_config
       (<[EGL.TEXTURE_FORMAT := 0x305E]> (<[EGL.TEXTURE_TARGET := 0x305F]> ∅)))
    = 0x305E
  /\ getTextureFormat
       (Surface_ctor (I := MockSurfaceImpl) 64 EGL.PBUFFER_BIT example_config ∅)
     = EGL.NO_TEXTURE.
Proof.
  assert (Hkind : EGL.PBUFFER_BIT <> EGL.WINDOW_BIT) by (vm_compute; discriminate).
  split.
  - destruct (proj2 (proj2 (window_surface_has_no_texture (I := MockSurfaceImpl) 64
                              example_config
                              (<[EGL.TEXTURE_FORMAT := 0x305E]>
                                 (<[EGL.TEXTURE_TARGET := 0x305F]> ∅))))
                EGL.PBUFFER_BIT Hkind) as (Hformat & _).
    rewrite Hformat. vm_compute. reflexivity.
  - destruct (proj2 (proj2 (window_surface_has_no_texture (I := MockSurfaceImpl) 64
                              example_config ∅))
                EGL.PBUFFER_BIT Hkind) as (_ & _ & Hformat & _).
    apply Hformat. reflexivity.
Defined.

(** C10 with the byte-level coders. *)
Lemma decode_inverts_encode_witness :
  decode (encode example_options [] ++ []) default_options
    = (true, example_options, []).
Proof.
  exact (proj1 (proj1 (decode_inverts_encode ReferrerPolicy.t
                         Destination_coder_lawful Mode_coder_lawful
                         Credentials_coder_lawful Cache_coder_lawful
                         Redirect_coder_lawful ReferrerPolicy_coder_lawful
                         WTFString_coder_lawful bool_coder_lawful)
                  example_options default_options [])).
Defined.

(** ** Initialisation, binding and the rest of the lifetime *)

Section MoreLifetimeProperties.

Context {I : Type} `{SurfaceImpl I}.

Ltac monad :=
  unfold mbind, M_bind, mret, M_ret, this, modify, emit, modify_sourced,
    free_this, ASSERT, crash in *; simpl in *.

(** X1.  initialize on a surface without a backend is a null dereference.
    With a backend, a failed backend initialize is returned as it is and
    neither the swap behaviour nor the default framebuffer is touched; a
    successful one makes the default framebuffer and takes the swap
    behaviour the backend reports after its own initialisation. *)
Theorem initialize_result (d : Display) (w : World I) :
  alive w = true ->
  (mImplementation (surface w) = None ->
   initialize d w = Crash NullDereference w)
  /\ (forall i : I,
        mImplementation (surface w) = Some i ->
        isError (fst (impl_initialize d i)) = true ->
        exists w',
          initialize d w = Done (fst (impl_initialize d i)) w'
          /\ alive w' = true
          /\ mState_defaultFramebuffer (surface w')
             = mState_defaultFramebuffer (surface w)
          /\ mSwapBehavior (surface w') = mSwapBehavior (surface w)
          /\ mImplementation (surface w') = Some (snd (impl_initialize d i))
          /\ trace w' = trace w ++ [EvImplInitialize d])
  /\ (forall i : I,
        mImplementation (surface w) = Some i ->
        isError (fst (impl_initialize d i)) = false ->
        exists w',
          initialize d w = Done (mkError EGL.SUCCESS) w'
          /\ alive w' = true
          /\ mState_defaultFramebuffer (surface w') = Some DefaultFramebuffer
          /\ mSwapBehavior (surface w')
             = to_EGLenum (impl_getSwapBehavior (snd (impl_initialize d i)))
          /\ mImplementation (surface w') = Some (snd (impl_initialize d i))
          /\ trace w' = trace w ++ [EvImplInitialize d]).
Proof.
  intros Ha. destruct w as [s a ts tr]. simpl in Ha. subst a.
  unfold initialize, call_impl. split; [|split]; simpl.
  - intros Hi. monad. rewrite Hi. reflexivity.
  - intros i Hi Herr. monad. rewrite Hi. simpl. rewrite Herr.
    eexists. split; [reflexivity|]. simpl. repeat split.
  - intros i Hi Herr. monad. rewrite Hi. simpl. rewrite Herr. simpl.
    eexists. split; [reflexivity|]. simpl. repeat split.
Qed.

(** initialize with a backend always returns; only the backend's state,
    the swap behaviour and the default framebuffer can change. *)
Lemma initialize_alive (d : Display) (w : World I) (i : I) :
  alive w = true ->
  mImplementation (surface w) = Some i ->
  exists (e : Error) (w' : World I),
    initialize d w = Done e w'
    /\ alive w' = true
    /\ mImplementation (surface w') = Some (snd (impl_initialize d i))
    /\ mState_defaultFramebuffer (surface w') =
         (if isError (fst (impl_initialize d i))
          then mState_defaultFramebuffer (surface w)
          else Some DefaultFramebuffer)
    /\ mTexture (surface w') = mTexture (surface w)
    /\ mCurrentCount (surface w') = mCurrentCount (surface w)
    /\ trace w' = trace w ++ [EvImplInitialize d].
Proof.
  intros Ha Hi. destruct w as [s a ts tr]. simpl in Ha, Hi. subst a.
  unfold initialize, call_impl. monad. rewrite Hi. simpl.
  destruct (isError (fst (impl_initialize d i))); simpl;
    eexists; eexists; (split; [reflexivity|]); simpl; repeat split.
Qed.

(** X2.  A surface that is not current, has no framebuffer and no texture
    yet, is initialised and then destroyed.  If initialize failed, the
    teardown calls the backend's destroy and deletes the backend, and
    makes no framebuffer call; if it succeeded, the framebuffer made by
    initialize is torn down first and deleted as well. *)
Theorem initialize_then_onDestroy (d d' : Display) (w : World I) (i : I) :
  alive w = true ->
  mImplementation (surface w) = Some i ->
  mState_defaultFramebuffer (surface w) = None ->
  mTexture (surface w) = None ->
  mCurrentCount (surface w) = 0 ->
  exists w',
    (initialize d;; onDestroy d') w = Done tt w'
    /\ alive w' = false
    /\ trace w' =
         trace w
         ++ (if isError (fst (impl_initialize d i))
             then [EvImplInitialize d;
                   EvImplDestroy d';
                   EvDeleteImplementation;
                   EvSurfaceFreed]
             else [EvImplInitialize d;
                   EvFramebufferDestroyDefault d';
                   EvImplDestroy d';
                   EvDeleteFramebuffer;
                   EvDeleteImplementation;
                   EvSurfaceFreed]).
Proof.
  intros Ha Hi Hfb Ht Hc.
  destruct (initialize_alive d w i Ha Hi)
    as (e & w1 & Hrun & Ha1 & Hi1 & Hfb1 & Ht1 & Hc1 & Htr1).
  unfold mbind, M_bind. rewrite Hrun.
  rewrite onDestroy_alive by exact Ha1.
  rewrite Hc1, Hc. simpl.
  destruct (destroy_alive d' (with_destroyed w1) Ha1) as (w' & Hd & Ha' & Htr & _).
  exists w'. split; [exact Hd|]. split; [exact Ha'|].
  rewrite Htr. simpl. rewrite Htr1, <- app_assoc. f_equal.
  unfold teardown_events. simpl. rewrite Hi1, Hfb1, Ht1, Ht, Hfb.
  destruct (isError (fst (impl_initialize d i))); reflexivity.
Qed.

(** X3.  bindTexImage followed by releaseTexImage, both accepted by the
    backend, leaves the surface as it was except for the backend's own
    state: no texture is bound, the texture carries no back-reference, and
    the four calls were made in protocol order. *)
Theorem bind_release_round_trip (t : Texture) (buffer buffer' : EGLint)
    (w : World I) (i : I) :
  alive w = true ->
  mTexture (surface w) = None ->
  mImplementation (surface w) = Some i ->
  isError (fst (impl_bindTexImage t buffer i)) = false ->
  isError (fst (impl_releaseTexImage buffer' (snd (impl_bindTexImage t buffer i))))
    = false ->
  exists w',
    (bindTexImage t buffer;; releaseTexImage buffer') w
      = Done (mkError EGL.SUCCESS) w'
    /\ alive w' = true
    /\ surface w' =
         set_mImplementation
           (Some (snd (impl_releaseTexImage buffer'
                         (snd (impl_bindTexImage t buffer i)))))
           (surface w)
    /\ sourced w' = sourced w ∖ {[t]}
    /\ trace w' = trace w ++ [EvImplBindTexImage t buffer;
                              EvTextureBindTexImageFromSurface t;
                              EvImplReleaseTexImage buffer';
                              EvTextureReleaseTexImageFromSurface t].
Proof.
  intros Ha Ht Hi Hb Hr. destruct w as [s a ts tr]. simpl in *. subst a.
  destruct s as [fb cfg im cnt ds ty psb fl dc fs fw fh tf tg par rb sb ori tex bf dsf].
  simpl in *. subst.
  unfold bindTexImage, releaseTexImage, Texture_bindTexImageFromSurface,
    Texture_releaseTexImageFromSurface, call_impl.
  monad. rewrite Hb. simpl. rewrite Hr. simpl.
  eexists. split; [reflexivity|]. simpl. repeat split.
  - apply set_eq. intros x. rewrite !elem_of_difference, elem_of_union. tauto.
  - rewrite <- !app_assoc. reflexivity.
Qed.

(** X4.  releaseTexImageFromTexture stops at its assertion when no texture
    is bound.  With a texture bound it only clears [mTexture]: it calls
    neither the backend nor the texture and leaves the texture's
    back-reference alone; a teardown that follows makes no call of the
    texture binding protocol either. *)
Theorem releaseTexImageFromTexture_is_silent (d : Display) (w : World I) :
  alive w = true ->
  (mTexture (surface w) = None ->
   releaseTexImageFromTexture w = Crash AssertionFailure w)
  /\ (forall t : Texture,
        mTexture (surface w) = Some t ->
        (exists w1,
           releaseTexImageFromTexture w = Done tt w1
           /\ alive w1 = true
           /\ surface w1 = set_mTexture None (surface w)
           /\ sourced w1 = sourced w
           /\ trace w1 = trace w)
        /\ exists (w2 : World I) (evs : list Event),
             (releaseTexImageFromTexture;; destroy d) w = Done tt w2
             /\ trace w2 = trace w ++ evs
             /\ forallb (fun e => negb (is_texture_call e)) evs = true
             /\ sourced w2 = sourced w).
Proof.
  intros Ha. destruct w as [s a ts tr]. simpl in Ha. subst a.
  destruct s as [fb cfg im cnt ds ty psb fl dc fs fw fh tf tg par rb sb ori tex bf dsf].
  split; simpl.
  - intros ->. reflexivity.
  - intros t ->. split.
    + eexists. split; [reflexivity|]. simpl. repeat split.
    + unfold releaseTexImageFromTexture, destroy, delete_this, Surface_dtor, call_impl.
      monad. destruct im as [i|], fb as [f|]; simpl;
        eexists; eexists; (split; [reflexivity|]); simpl;
        rewrite <- ?app_assoc; (split; [reflexivity|]); split; reflexivity.
Qed.

(** While a run has not torn the surface down, the count is what the
    operations add up to, the flag is set once onDestroy was called, and a
    set flag goes with a positive count. *)
Lemma run_live_inv (d : Display) (ops : list Op) (w w' : World I) :
  alive w = true ->
  0 <= mCurrentCount (surface w) ->
  (mDestroyed (surface w) = true -> mCurrentCount (surface w) <> 0) ->
  run d ops w = Done tt w' ->
  alive w' = true ->
  mCurrentCount (surface w') = net_count (mCurrentCount (surface w)) ops
  /\ (mDestroyed (surface w) = true \/ In OpOnDestroy ops ->
      mDestroyed (surface w') = true)
  /\ 0 <= mCurrentCount (surface w')
  /\ (mDestroyed (surface w') = true -> mCurrentCount (surface w') <> 0).
Proof.
  revert w. induction ops as [|o rest IH]; intros w Ha Hpos Hinv Hrun Ha'.
  - injection Hrun as <-. simpl. split; [reflexivity|].
    split; [|split; [exact Hpos|exact Hinv]].
    intros [Hd|[]]. exact Hd.
  - rewrite run_cons in Hrun. rewrite net_count_cons.
    assert (Hnext : forall w1,
               alive w1 = true ->
               mCurrentCount (surface w1) = net_count (mCurrentCount (surface w)) [o] ->
               (mDestroyed (surface w) = true \/ o = OpOnDestroy ->
                mDestroyed (surface w1) = true) ->
               0 <= mCurrentCount (surface w1) ->
               (mDestroyed (surface w1) = true -> mCurrentCount (surface w1) <> 0) ->
               run d rest w1 = Done tt w' ->
               mCurrentCount (surface w') =
                 net_count (net_count (mCurrentCount (surface w)) [o]) rest
               /\ (mDestroyed (surface w) = true \/ In OpOnDestroy (o :: rest) ->
                   mDestroyed (surface w') = true)
               /\ 0 <= mCurrentCount (surface w')
               /\ (mDestroyed (surface w') = true -> mCurrentCount (surface w') <> 0)).
    { intros w1 Ha1 Hc1 Hd1 Hpos1 Hinv1 Hrun1.
      destruct (IH w1 Ha1 Hpos1 Hinv1 Hrun1 Ha') as (Hc & Hd & Hi).
      split; [rewrite Hc, Hc1; reflexivity|]. split; [|exact Hi].
      intros [Hdw|[->|Hin]]; apply Hd; auto. }
    assert (Hdead : forall w1, alive w1 = false -> run d rest w1 = Done tt w' -> False).
    { intros w1 Ha1 Hrun1. rewrite run_dead in Hrun1 by exact Ha1.
      destruct rest; [|discriminate]. injection Hrun1 as <-. congruence. }
    destruct o as [[|]|]; cbn [step] in Hrun.
    + rewrite setIsCurrent_true_alive in Hrun by exact Ha.
      apply (Hnext (with_count (mCurrentCount (surface w) + 1) w) Ha);
        simpl; [reflexivity| |lia| |exact Hrun].
      * intros [Hd|Hd]; [exact Hd|discriminate].
      * intros _. lia.
    + rewrite setIsCurrent_false_alive in Hrun by exact Ha.
      destruct (0 <? mCurrentCount (surface w)) eqn:Hgt; [|discriminate].
      apply Z.ltb_lt in Hgt.
      destruct ((mCurrentCount (surface w) - 1 =? 0) && mDestroyed (surface w)) eqn:Hc.
      * exfalso.
        destruct (destroy_alive d (with_count (mCurrentCount (surface w) - 1) w) Ha)
          as (w1 & Hd1 & Ha1 & _).
        rewrite Hd1 in Hrun. exact (Hdead w1 Ha1 Hrun).
      * apply (Hnext (with_count (mCurrentCount (surface w) - 1) w) Ha);
          simpl; [reflexivity| |lia| |exact Hrun].
        -- intros [Hd|Hd]; [exact Hd|discriminate].
        -- intros Hd. rewrite Hd, andb_true_r in Hc. apply Z.eqb_neq in Hc. exact Hc.
    + rewrite onDestroy_alive in Hrun by exact Ha.
      destruct (mCurrentCount (surface w) =? 0) eqn:Hz.
      * exfalso.
        destruct (destroy_alive d (with_destroyed w) Ha) as (w1 & Hd1 & Ha1 & _).
        rewrite Hd1 in Hrun. exact (Hdead w1 Ha1 Hrun).
      * apply Z.eqb_neq in Hz.
        apply (Hnext (with_destroyed w) Ha);
          simpl; [reflexivity|auto|exact Hpos|auto|exact Hrun].
Qed.

(** X5.  No surface is leaked: from a surface with count zero and the flag
    clear, a sequence of operations that has run, contains onDestroy and
    whose increments and decrements cancel has torn the surface down,
    exactly once. *)
Theorem balanced_destroyed_surface_is_freed (d : Display) (s : Surface I)
    (ops : list Op) (w : World I) :
  mCurrentCount s = 0 ->
  mDestroyed s = false ->
  run d ops (new_world s) = Done tt w ->
  In OpOnDestroy ops ->
  net_count 0 ops = 0 ->
  alive w = false /\ teardowns w = 1%nat.
Proof.
  intros Hc Hd Hrun Hin Hnet.
  destruct (alive w) eqn:Ha.
  - exfalso.
    destruct (run_live_inv d ops (new_world s) w eq_refl) as (Hcnt & Hdes & _ & Hinv);
      simpl; try assumption; [lia|congruence|].
    simpl in Hcnt, Hdes. rewrite Hc, Hnet in Hcnt. apply Hinv; [|exact Hcnt].
    apply Hdes. right. exact Hin.
  - split; [reflexivity|].
    destruct (run_done_cases d ops (new_world s) w eq_refl Hrun)
      as [[Ha' _]|(_ & Ht & _)]; [congruence|exact Ht].
Qed.

(** X6.  onDestroy twice.  While the surface is current the second call
    changes nothing: the pair does what one call does, which is to set the
    flag.  When the surface is not current the first call frees it and the
    second is a use of the freed object. *)
Theorem onDestroy_twice (d : Display) (w : World I) :
  alive w = true ->
  (mCurrentCount (surface w) <> 0 ->
   (onDestroy d;; onDestroy d) w = onDestroy d w
   /\ onDestroy d w = Done tt (with_destroyed w))
  /\ (mCurrentCount (surface w) = 0 ->
      exists w',
        onDestroy d w = Done tt w'
        /\ alive w' = false
        /\ (onDestroy d;; onDestroy d) w = Crash UseAfterFree w').
Proof.
  intros Ha. split.
  - intros Hc. apply Z.eqb_neq in Hc.
    unfold mbind, M_bind. rewrite onDestroy_alive by exact Ha. rewrite Hc.
    split; [|reflexivity].
    rewrite onDestroy_alive by exact Ha. simpl. rewrite Hc.
    destruct w as [s a ts tr], s; reflexivity.
  - intros Hc. unfold mbind, M_bind. rewrite onDestroy_alive by exact Ha.
    rewrite Hc. simpl.
    destruct (destroy_alive d (with_destroyed w) Ha) as (w' & Hrun & Ha' & _).
    exists w'. rewrite Hrun. split; [reflexivity|]. split; [exact Ha'|].
    change (onDestroy d w') with (step d OpOnDestroy w').
    apply step_dead, Ha'.
Qed.

(** X7.  setIsCurrent(true) followed by setIsCurrent(false) gives back the
    very same surface, provided the count is not negative and the surface
    is not waiting at count zero with its flag set; in that last state the
    pair tears the surface down. *)
Theorem setIsCurrent_true_then_false (d : Display) (w : World I) :
  alive w = true ->
  0 <= mCurrentCount (surface w) ->
  (mCurrentCount (surface w) <> 0 \/ mDestroyed (surface w) = false ->
   (setIsCurrent d true;; setIsCurrent d false) w = Done tt w)
  /\ (mCurrentCount (surface w) = 0 -> mDestroyed (surface w) = true ->
      exists w',
        (setIsCurrent d true;; setIsCurrent d false) w = Done tt w'
        /\ alive w' = false).
Proof.
  intros Ha Hpos. unfold mbind, M_bind.
  rewrite setIsCurrent_true_alive by exact Ha.
  rewrite setIsCurrent_false_alive by exact Ha. simpl.
  replace (0 <? mCurrentCount (surface w) + 1) with true
    by (symmetry; apply Z.ltb_lt; lia).
  replace (mCurrentCount (surface w) + 1 - 1) with (mCurrentCount (surface w)) by lia.
  split.
  - intros Hor.
    replace ((mCurrentCount (surface w) =? 0) && mDestroyed (surface w)) with false.
    + destruct w as [s a ts tr], s. reflexivity.
    + symmetry. apply andb_false_iff.
      destruct Hor as [Hc|Hd]; [left; apply Z.eqb_neq, Hc|right; exact Hd].
  - intros Hc Hd. rewrite Hc, Hd. simpl.
    match goal with
    | |- context [destroy d ?w0] =>
        destruct (destroy_alive d w0 Ha) as (w' & Hrun & Ha' & _)
    end.
    exists w'. split; [exact Hrun|exact Ha'].
Qed.

End MoreLifetimeProperties.

(** ** Every call, in any order *)

Section CallProperties.

Context {I : Type} `{SurfaceImpl I} `{SurfaceImplPresentation I}.

Ltac monad :=
  unfold mbind, M_bind, mret, M_ret, this, modify, emit, modify_sourced,
    free_this, ASSERT, crash in *; simpl in *.

Ltac unfold_calls :=
  unfold exec, initialize, swap, swapWithDamage, postSubBuffer,
    querySurfacePointerANGLE, setSwapInterval, getSyncValues, bindTexImage,
    releaseTexImage, releaseTexImageFromTexture, forward_impl, call_impl,
    Texture_bindTexImageFromSurface, Texture_releaseTexImageFromSurface in *.

Ltac split_ifs :=
  repeat match goal with
         | |- context [if ?b then _ else _] => destruct b eqn:?; simpl
         end.

Lemma same_construction_refl (s : Surface I) : same_construction s s.
Proof. unfold same_construction. repeat split. Qed.

Lemma same_construction_trans (s1 s2 s3 : Surface I) :
  same_construction s1 s2 -> same_construction s2 s3 -> same_construction s1 s3.
Proof.
  unfold same_construction. intros Ha Hb.
  repeat match goal with Hc : _ /\ _ |- _ => destruct Hc end.
  repeat split; congruence.
Qed.

(** What a teardown leaves in the members. *)
Lemma destroy_members (d : Display) (w : World I) :
  alive w = true ->
  exists w',
    destroy d w = Done tt w'
    /\ alive w' = false
    /\ same_construction (surface w) (surface w')
    /\ mCurrentCount (surface w') = mCurrentCount (surface w)
    /\ trace w' = trace w ++ teardown_events d (surface w).
Proof.
  intros Ha. destruct w as [s a ts tr]. simpl in Ha. subst a.
  unfold destroy, delete_this, Surface_dtor, Texture_releaseTexImageFromSurface,
    call_impl, teardown_events, same_construction.
  destruct s as [fb cfg im cnt ds ty psb fl dc fs fw fh tf tg par rb sb ori tex bf dsf].
  destruct tex as [t|], im as [i|], fb as [f|]; monad;
    eexists; (split; [reflexivity|]); simpl;
    rewrite <- ?app_assoc, ?app_nil_r; simpl; repeat split.
Qed.

Lemma exec_dead (c : Call) (w : World I) :
  alive w = false -> exec c w = Crash UseAfterFree w.
Proof.
  intros Ha. destruct c as [| ? [|] | | | | | | | | | |]; unfold_calls;
    unfold setIsCurrent, onDestroy; monad; rewrite Ha; reflexivity.
Qed.

(** Calls other than setIsCurrent(false) and onDestroy keep the surface in
    place, whether they return or stop at a fault. *)
Lemma exec_other (c : Call) (w : World I) :
  alive w = true ->
  is_lifetime_call c = false ->
  alive (final (exec c w)) = true
  /\ same_construction (surface w) (surface (final (exec c w)))
  /\ mCurrentCount (surface (final (exec c w))) =
       mCurrentCount (surface w)
       + match c with CallSetIsCurrent _ true => 1 | _ => 0 end
  /\ mDestroyed (surface (final (exec c w))) = mDestroyed (surface w)
  /\ teardowns (final (exec c w)) = teardowns w.
Proof.
  intros Ha Hl. destruct w as [s a ts tr]. simpl in Ha. subst a.
  destruct s as [fb cfg im cnt ds ty psb fl dc fs fw fh tf tg par rb sb ori tex bf dsf].
  unfold teardowns, same_construction.
  destruct c as [| ? [|] | | | | | | | | | |]; try discriminate Hl; unfold_calls;
    unfold setIsCurrent; monad;
    destruct im as [i|], tex as [t|]; simpl; split_ifs;
    rewrite ?count_occ_app; simpl; rewrite ?Z.add_0_r, ?Nat.add_0_r;
    repeat split.
Qed.

(** The two lifetime calls end in one of four ways. *)
Lemma exec_lifetime (c : Call) (w : World I) :
  alive w = true ->
  is_lifetime_call c = true ->
  exec c w = Crash AssertionFailure w
  \/ (exists c', exec c w = Done tt (with_count c' w)
                 /\ (0 <= mCurrentCount (surface w) -> 0 <= c'))
  \/ exec c w = Done tt (with_destroyed w)
  \/ (exists w', exec c w = Done tt w'
                 /\ alive w' = false
                 /\ same_construction (surface w) (surface w')
                 /\ (0 <= mCurrentCount (surface w) -> 0 <= mCurrentCount (surface w'))
                 /\ teardowns w' = S (teardowns w)).
Proof.
  intros Ha Hl.
  destruct c as [| d [|] | d | | | | | | | | |]; try discriminate Hl; cbn [exec].
  - rewrite setIsCurrent_false_alive by exact Ha.
    destruct (0 <? mCurrentCount (surface w)) eqn:Hpos; [|left; reflexivity].
    apply Z.ltb_lt in Hpos.
    destruct ((mCurrentCount (surface w) - 1 =? 0) && mDestroyed (surface w)).
    + right. right. right.
      destruct (destroy_members d (with_count (mCurrentCount (surface w) - 1) w) Ha)
        as (w' & -> & Ha' & Hs & Hc & Ht).
      exists w'. split; [reflexivity|]. split; [exact Ha'|].
      split; [exact Hs|]. split; [simpl in Hc; lia|].
      apply (destroy_teardowns _ _ _ Ht).
    + right. left. eexists. split; [reflexivity|]. lia.
  - rewrite onDestroy_alive by exact Ha.
    destruct (mCurrentCount (surface w) =? 0).
    + right. right. right.
      destruct (destroy_members d (with_destroyed w) Ha)
        as (w' & -> & Ha' & Hs & Hc & Ht).
      exists w'. split; [reflexivity|]. split; [exact Ha'|].
      split; [exact Hs|]. split; [simpl in Hc; lia|].
      apply (destroy_teardowns _ _ _ Ht).
    + right. right. left. reflexivity.
Qed.

(** One call on an existing surface. *)
Lemma exec_frame (c : Call) (w : World I) :
  alive w = true ->
  same_construction (surface w) (surface (final (exec c w)))
  /\ (0 <= mCurrentCount (surface w) ->
      0 <= mCurrentCount (surface (final (exec c w))))
  /\ (teardowns (final (exec c w)) <= S (teardowns w))%nat
  /\ (alive (final (exec c w)) = true ->
      teardowns (final (exec c w)) = teardowns w).
Proof.
  intros Ha. destruct (is_lifetime_call c) eqn:Hl.
  - destruct (exec_lifetime c w Ha Hl)
      as [-> | [(c' & -> & Hc') | [-> | (w' & -> & Ha' & Hs & Hc & Ht)]]]; simpl.
    + split; [apply same_construction_refl|]. repeat split; auto.
    + split; [unfold same_construction; simpl; repeat split|].
      split; [exact Hc'|]. split; [unfold teardowns; simpl; lia|reflexivity].
    + split; [unfold same_construction; simpl; repeat split|].
      split; [auto|]. split; [unfold teardowns; simpl; lia|reflexivity].
    + split; [exact Hs|]. split; [exact Hc|]. split; [lia|congruence].
  - destruct (exec_other c w Ha Hl) as (Ha' & Hs & Hc & _ & Ht).
    split; [exact Hs|]. split; [|split; [lia|intros _; exact Ht]].
    rewrite Hc. destruct c as [| ? [|] | | | | | | | | | |]; lia.
Qed.

Lemma exec_all_cons (c : Call) (rest : list Call) (w : World I) :
  exec_all (c :: rest) w =
    match exec c w with
    | Done _ w' => exec_all rest w'
    | Crash f w' => Crash f w'
    end.
Proof. reflexivity. Qed.

Lemma exec_all_dead (calls : list Call) (w : World I) :
  alive w = false -> final (exec_all calls w) = w.
Proof.
  intros Ha. destruct calls as [|c rest]; [reflexivity|].
  rewrite exec_all_cons, exec_dead by exact Ha. reflexivity.
Qed.

Lemma exec_all_frame (calls : list Call) (w : World I) :
  same_construction (surface w) (surface (final (exec_all calls w)))
  /\ (0 <= mCurrentCount (surface w) ->
      0 <= mCurrentCount (surface (final (exec_all calls w))))
  /\ (alive w = true ->
      (teardowns (final (exec_all calls w)) <= S (teardowns w))%nat).
Proof.
  revert w. induction calls as [|c rest IH]; intros w.
  { simpl. split; [apply same_construction_refl|]. split; [auto|lia]. }
  destruct (alive w) eqn:Ha.
  2:{ rewrite exec_all_dead by exact Ha.
      split; [apply same_construction_refl|]. split; [auto|discriminate]. }
  destruct (exec_frame c w Ha) as (Hs & Hc & Ht & Hlive).
  rewrite exec_all_cons. destruct (exec c w) as [[] w1|f w1]; simpl in *.
  - destruct (IH w1) as (Hs1 & Hc1 & Ht1).
    split; [exact (same_construction_trans _ _ _ Hs Hs1)|].
    split; [auto|]. intros _.
    destruct (alive w1) eqn:Ha1.
    + rewrite <- (Hlive eq_refl). apply Ht1. reflexivity.
    + rewrite exec_all_dead by exact Ha1. exact Ht.
  - split; [exact Hs|]. split; [exact Hc|]. intros _. exact Ht.
Qed.



(** X10.  Only setIsCurrent(false) and onDestroy can end a surface.  A
    sequence without them, whatever it initialises, presents, binds or
    releases and wherever it faults, leaves the surface in place, torn
    down no further and with its destroyed flag as it was; and no sequence
    at all tears an existing surface down more than once. *)
Theorem only_lifetime_calls_tear_down (calls : list Call) (w : World I) :
  alive w = true ->
  (teardowns (final (exec_all calls w)) <= S (teardowns w))%nat
  /\ (forallb (fun c => negb (is_lifetime_call c)) calls = true ->
      alive (final (exec_all calls w)) = true
      /\ teardowns (final (exec_all calls w)) = teardowns w
      /\ mDestroyed (surface (final (exec_all calls w))) = mDestroyed (surface w)).
Proof.
  intros Ha. split; [apply exec_all_frame, Ha|].
  revert w Ha. induction calls as [|c rest IH]; intros w Ha Hall.
  { simpl. auto. }
  simpl in Hall. apply andb_true_iff in Hall as [Hc Hrest].
  apply negb_true_iff in Hc.
  destruct (exec_other c w Ha Hc) as (Ha1 & _ & _ & Hd1 & Ht1).
  rewrite exec_all_cons. destruct (exec c w) as [[] w1|f w1]; simpl in *.
  - destruct (IH w1 Ha1 Hrest) as (Ha2 & Ht2 & Hd2).
    split; [exact Ha2|]. split; congruence.
  - auto.
Qed.

End CallProperties.

(** ** More on construction *)

Section ConstructionProperties.

Context {I : Type} `{SurfaceImpl I} `{EGLImplFactory I}.

Variable ptr_bits : Z.

Ltac monad :=
  unfold mbind, M_bind, mret, M_ret, this, modify, emit, modify_sourced,
    free_this, ASSERT, crash in *; simpl in *.

(** X11.  The constructor looks at nine attributes and nothing else: two
    attribute maps that agree on them build the same surface. *)
Theorem constructor_reads_only_its_keys (surfaceType : EGLint) (config : Config)
    (a1 a2 : gmap Z Z) :
  (forall k : Z, In k constructor_keys -> a1 !! k = a2 !! k) ->
  Surface_ctor (I := I) ptr_bits surfaceType config a1
  = Surface_ctor ptr_bits surfaceType config a2.
Proof.
  intros Hk. unfold Surface_ctor, AttributeMap_get, EGLAttrib.
  rewrite !Hk by (unfold constructor_keys; simpl; tauto).
  reflexivity.
Qed.

(** X12.  Unless EGL_FIXED_SIZE_ANGLE is exactly EGL_TRUE, the width and
    height attributes are not read: whatever they are, the surface is the
    one built without them. *)
Theorem width_height_read_only_when_fixed (surfaceType : EGLint) (config : Config)
    (attributes : gmap Z Z) (width height : EGLAttrib) :
  AttributeMap_get attributes EGL.FIXED_SIZE_ANGLE EGL.FALSE <> EGL.TRUE ->
  Surface_ctor (I := I) ptr_bits surfaceType config
    (<[EGL.WIDTH := width]> (<[EGL.HEIGHT := height]> attributes))
  = Surface_ctor ptr_bits surfaceType config
      (delete EGL.WIDTH (delete EGL.HEIGHT attributes)).
Proof.
  intros Hfree. apply Z.eqb_neq in Hfree.
  assert (Hins : forall k : Z,
             k <> EGL.WIDTH -> k <> EGL.HEIGHT ->
             (<[EGL.WIDTH := width]> (<[EGL.HEIGHT := height]> attributes)) !! k
             = attributes !! k).
  { intros k Hw Hh. rewrite !lookup_insert_ne by congruence. reflexivity. }
  assert (Hdel : forall k : Z,
             k <> EGL.WIDTH -> k <> EGL.HEIGHT ->
             delete EGL.WIDTH (delete EGL.HEIGHT attributes) !! k = attributes !! k).
  { intros k Hw Hh. rewrite !lookup_delete_ne by congruence. reflexivity. }
  unfold Surface_ctor, AttributeMap_get, EGLAttrib in *. cbv zeta.
  rewrite (Hins EGL.FIXED_SIZE_ANGLE), (Hdel EGL.FIXED_SIZE_ANGLE), Hfree
    by (vm_compute; discriminate).
  rewrite (Hins EGL.POST_SUB_BUFFER_SUPPORTED_NV),
    (Hins EGL.FLEXIBLE_SURFACE_COMPATIBILITY_SUPPORTED_ANGLE),
    (Hins EGL.DIRECT_COMPOSITION_ANGLE), (Hins EGL.TEXTURE_FORMAT),
    (Hins EGL.TEXTURE_TARGET), (Hins EGL.SURFACE_ORIENTATION_ANGLE)
    by (vm_compute; discriminate).
  rewrite (Hdel EGL.POST_SUB_BUFFER_SUPPORTED_NV),
    (Hdel EGL.FLEXIBLE_SURFACE_COMPATIBILITY_SUPPORTED_ANGLE),
    (Hdel EGL.DIRECT_COMPOSITION_ANGLE), (Hdel EGL.TEXTURE_FORMAT),
    (Hdel EGL.TEXTURE_TARGET), (Hdel EGL.SURFACE_ORIENTATION_ANGLE)
    by (vm_compute; discriminate).
  reflexivity.
Qed.

(** X13.  A fixed-size surface built without width and height attributes
    is 0 by 0: its attachment size is (0, 0, 1) whatever the backend would
    report, even before a backend exists. *)
Theorem fixed_size_without_dimensions_is_empty (surfaceType : EGLint)
    (config : Config) (attributes : gmap Z Z) :
  AttributeMap_get attributes EGL.FIXED_SIZE_ANGLE EGL.FALSE = EGL.TRUE ->
  attributes !! EGL.WIDTH = None ->
  attributes !! EGL.HEIGHT = None ->
  getAttachmentSize (Surface_ctor (I := I) ptr_bits surfaceType config attributes)
  = Some (0, 0, 1).
Proof.
  intros Hfixed Hw Hh. apply Z.eqb_eq in Hfixed.
  unfold getAttachmentSize, getWidth, getHeight, Surface_ctor, AttributeMap_get,
    EGLAttrib in *.
  cbn [mFixedSize mFixedWidth mFixedHeight]. rewrite Hfixed, Hw, Hh.
  unfold to_size_t, wrap_unsigned. rewrite Zmod_0_l. reflexivity.
Qed.

(** X14.  A surface straight out of any of the four subclass constructors
    has one of the three kinds and a backend, so its size and
    post-sub-buffer queries dereference no null pointer; destroyed before
    initialize, it is freed at once with a teardown that destroys and
    deletes the backend and touches neither a framebuffer nor a texture. *)
Theorem uninitialized_surface_can_be_destroyed (d : Display) (config : Config)
    (attribs : gmap Z Z) (window nativePixmap clientBuffer : Z) (buftype : EGLenum)
    (s : Surface I) :
  s = WindowSurface_ctor ptr_bits config window attribs
  \/ s = PbufferSurface_ctor ptr_bits config attribs
  \/ s = PbufferSurface_ctor_clientBuffer ptr_bits config buftype clientBuffer attribs
  \/ s = PixmapSurface_ctor ptr_bits config nativePixmap attribs ->
  (exists w',
     onDestroy d (new_world s) = Done tt w'
     /\ alive w' = false
     /\ trace w' = [EvImplDestroy d; EvDeleteImplementation; EvSurfaceFreed])
  /\ In (mType s) [EGL.WINDOW_BIT; EGL.PBUFFER_BIT; EGL.PIXMAP_BIT]
  /\ is_Some (getWidth s)
  /\ is_Some (getHeight s)
  /\ is_Some (isPostSubBufferSupported s)
  /\ is_Some (getAttachmentSize s).
Proof.
  intros Hs.
  assert (Hshape : exists ty i,
             s = set_mImplementation (Some i) (Surface_ctor ptr_bits ty config attribs)
             /\ In (mType s) [EGL.WINDOW_BIT; EGL.PBUFFER_BIT; EGL.PIXMAP_BIT]).
  { destruct Hs as [-> | [-> | [-> | ->]]]; eexists; eexists; (split; [reflexivity|]);
      simpl; tauto. }
  destruct Hshape as (ty & i & -> & Hty). split; [|split; [exact Hty|]].
  - unfold onDestroy, destroy, delete_this, Surface_dtor, call_impl. monad.
    eexists. split; [reflexivity|]. split; reflexivity.
  - unfold getAttachmentSize, getWidth, getHeight, isPostSubBufferSupported. simpl.
    destruct (AttributeMap_get attribs EGL.FIXED_SIZE_ANGLE EGL.FALSE =? EGL.TRUE),
      (AttributeMap_get attribs EGL.POST_SUB_BUFFER_SUPPORTED_NV EGL.FALSE =? EGL.TRUE);
      simpl; repeat split; eexists; reflexivity.
Qed.

End ConstructionProperties.

Section AttachmentProperties.

Context {I : Type} `{SurfaceImpl I} `{SurfaceImplPresentation I}.


End AttachmentProperties.

(** ** More on FetchOptions coding *)

Section MoreCodingProperties.

Variable ReferrerPolicy : Type.

Context `{Coder Destination.t} `{Coder Mode.t} `{Coder Credentials.t}
        `{Coder Cache.t} `{Coder Redirect.t} `{Coder ReferrerPolicy}
        `{Coder WTFString} `{Coder bool}.

(** [encode] only appends. *)
Lemma encode_app (options : FetchOptions ReferrerPolicy) (encoder : list Byte.byte) :
  encode options encoder = encoder ++ encode options [].
Proof. unfold encode. cbn [app]. rewrite <- !app_assoc. reflexivity. Qed.

Lemma decode_encode (options out : FetchOptions ReferrerPolicy)
    (rest : list Byte.byte) :
  lawful Destination.t -> lawful Mode.t -> lawful Credentials.t ->
  lawful Cache.t -> lawful Redirect.t -> lawful ReferrerPolicy ->
  lawful WTFString -> lawful bool ->
  decode (encode options [] ++ rest) out = (true, options, rest).
Proof.
  intros L1 L2 L3 L4 L5 L6 L7 L8.
  unfold encode. cbn [app]. rewrite <- !app_assoc.
  unfold decode. rewrite L1, L2, L3, L4, L5, L6, L7, L8.
  destruct options. reflexivity.
Qed.

(** X16.  [encode] appends to the encoder and leaves what was written
    before in place; with an encoder and decoder that agree on each field
    type, two options written one after the other are read back one after
    the other, the first decode stopping exactly where the second
    encoding starts. *)
Theorem encode_frames_consecutive_options :
  lawful Destination.t -> lawful Mode.t -> lawful Credentials.t ->
  lawful Cache.t -> lawful Redirect.t -> lawful ReferrerPolicy ->
  lawful WTFString -> lawful bool ->
  forall (a b out : FetchOptions ReferrerPolicy) (encoder : list Byte.byte),
    encode a encoder = encoder ++ encode a []
    /\ decode (encode b (encode a [])) out = (true, a, encode b [])
    /\ decode (snd (decode (encode b (encode a [])) out)) out = (true, b, []).
Proof.
  intros L1 L2 L3 L4 L5 L6 L7 L8 a b out encoder.
  split; [apply encode_app|].
  rewrite (encode_app b (encode a [])).
  rewrite decode_encode by assumption. split; [reflexivity|].
  cbn [snd]. rewrite <- (app_nil_r (encode b [])).
  apply decode_encode; assumption.
Qed.

(** X17.  With an encoder and decoder that agree on each field type, the
    encoding determines the options: two encodings followed by anything
    are the same bytes only if the options are the same and what follows
    is the same. *)
Theorem encode_is_injective :
  lawful Destination.t -> lawful Mode.t -> lawful Credentials.t ->
  lawful Cache.t -> lawful Redirect.t -> lawful ReferrerPolicy ->
  lawful WTFString -> lawful bool ->
  forall (a b : FetchOptions ReferrerPolicy) (rest rest' : list Byte.byte),
    encode a [] ++ rest = encode b [] ++ rest' ->
    a = b /\ rest = rest'.
Proof.
  intros L1 L2 L3 L4 L5 L6 L7 L8 a b rest rest' Heq.
  pose proof (decode_encode a a rest L1 L2 L3 L4 L5 L6 L7 L8) as Ha.
  pose proof (decode_encode b a rest' L1 L2 L3 L4 L5 L6 L7 L8) as Hb.
  rewrite Heq in Ha. rewrite Ha in Hb. injection Hb as -> ->. split; reflexivity.
Qed.

(** X18.  What [decode] returns, and where it leaves the decoder, does not
    depend on the options passed in; and when it returns true nothing of
    them survives: the options handed back are the same for any two
    arguments. *)
Theorem decode_overwrites_every_field (decoder : list Byte.byte)
    (out1 out2 : FetchOptions ReferrerPolicy) :
  fst (fst (decode decoder out1)) = fst (fst (decode decoder out2))
  /\ snd (decode decoder out1) = snd (decode decoder out2)
  /\ (fst (fst (decode decoder out1)) = true ->
      snd (fst (decode decoder out1)) = snd (fst (decode decoder out2))).
Proof.
  unfold decode.
  repeat (match goal with
          | |- context [@get ?T ?C ?d] => destruct (@get T C d) as [[?|] ?]
          end; try (simpl; repeat split; discriminate)).
Qed.

End MoreCodingProperties.

Ltac enum_nodup :=
  repeat (apply List.NoDup_cons; [simpl; intuition discriminate|]);
  apply List.NoDup_nil.

Ltac enum_complete := let v := fresh "v" in intros v; destruct v; simpl; tauto.

(** X19.  Each EnumTraits specialisation lists every enumerator of its
    enumeration, once. *)
Theorem EnumTraits_list_every_enumerator_once :
  (List.NoDup EnumTraits.Destination_values
   /\ forall v : Destination.t, In v EnumTraits.Destination_values)
  /\ (List.NoDup EnumTraits.Mode_values
      /\ forall v : Mode.t, In v EnumTraits.Mode_values)
  /\ (List.NoDup EnumTraits.Credentials_values
      /\ forall v : Credentials.t, In v EnumTraits.Credentials_values)
  /\ (List.NoDup EnumTraits.Cache_values
      /\ forall v : Cache.t, In v EnumTraits.Cache_values)
  /\ (List.NoDup EnumTraits.Redirect_values
      /\ forall v : Redirect.t, In v EnumTraits.Redirect_values).
Proof.
  split; [split; [unfold EnumTraits.Destination_values; enum_nodup|enum_complete]|].
  split; [split; [unfold EnumTraits.Mode_values; enum_nodup|enum_complete]|].
  split; [split; [unfold EnumTraits.Credentials_values; enum_nodup|enum_complete]|].
  split; [split; [unfold EnumTraits.Cache_values; enum_nodup|enum_complete]|].
  split; [unfold EnumTraits.Redirect_values; enum_nodup|enum_complete].
Qed.

(** ** The further properties on concrete inputs *)

(** X1 on a surface without a backend, on one whose backend fails, and on
    a window surface whose backend succeeds. *)
Lemma initialize_result_witness :
  initialize 0%nat
    (new_world (Surface_ctor (I := MockSurfaceImpl) 64 EGL.PBUFFER_BIT
                  example_config ∅))
    = Crash NullDereference
        (new_world (Surface_ctor 64 EGL.PBUFFER_BIT example_config ∅))
  /\ (exists w',
        initialize 0%nat (new_world failing_surface) = Done (mkError 0x3003) w'
        /\ mState_defaultFramebuffer (surface w') = None
        /\ mSwapBehavior (surface w') = EGL.NONE)
  /\ (exists w',
        initialize 0%nat (new_world window_surface) = Done (mkError EGL.SUCCESS) w'
        /\ mState_defaultFramebuffer (surface w') = Some DefaultFramebuffer
        /\ mSwapBehavior (surface w') = 0x3094).
Proof.
  split; [|split].
  - apply (proj1 (initialize_result 0%nat
                    (new_world (Surface_ctor (I := MockSurfaceImpl) 64
                                  EGL.PBUFFER_BIT example_config ∅))
                    eq_refl)).
    reflexivity.
  - assert (Hfail : isError (fst (impl_initialize 0%nat
                                    (mkMock 64 64 EGL.FALSE 0x3003 0))) = true)
      by reflexivity.
    destruct (proj1 (proj2 (initialize_result 0%nat (new_world failing_surface)
                              eq_refl))
                (mkMock 64 64 EGL.FALSE 0x3003 0) eq_refl Hfail)
      as (w' & Hrun & _ & Hfb & Hsb & _).
    exists w'. split; [exact Hrun|]. split; [exact Hfb|exact Hsb].
  - assert (Hok : isError (fst (impl_initialize 0%nat
                                  (mkMock 640 480 EGL.TRUE EGL.SUCCESS 0))) = false)
      by reflexivity.
    destruct (proj2 (proj2 (initialize_result 0%nat (new_world window_surface)
                              eq_refl))
                (mkMock 640 480 EGL.TRUE EGL.SUCCESS 0) eq_refl Hok)
      as (w' & Hrun & _ & Hfb & Hsb & _).
    exists w'. split; [exact Hrun|]. split; [exact Hfb|exact Hsb].
Defined.

(** X2 on the surface whose backend fails. *)
Lemma initialize_then_onDestroy_witness :
  exists w',
    (initialize 0%nat;; onDestroy 1%nat) (new_world failing_surface) = Done tt w'
    /\ alive w' = false
    /\ trace w' = [EvImplInitialize 0%nat;
                   EvImplDestroy 1%nat;
                   EvDeleteImplementation;
                   EvSurfaceFreed].
Proof.
  exact (initialize_then_onDestroy (H := MockSurfaceImpl_impl) 0%nat 1%nat
           (new_world failing_surface) (mkMock 64 64 EGL.FALSE 0x3003 0)
           eq_refl eq_refl eq_refl eq_refl eq_refl).
Defined.

(** X3 on a fresh window surface and texture 5. *)
Lemma bind_release_round_trip_witness :
  exists w',
    (bindTexImage 5%positive EGL.BACK_BUFFER;; releaseTexImage EGL.BACK_BUFFER)
      (new_world window_surface) = Done (mkError EGL.SUCCESS) w'
    /\ alive w' = true
    /\ mTexture (surface w') = None
    /\ sourced w' = ∅ ∖ {[5%positive]}.
Proof.
  destruct (bind_release_round_trip (H := MockSurfaceImpl_impl)
              5%positive EGL.BACK_BUFFER EGL.BACK_BUFFER
              (new_world window_surface) (mkMock 640 480 EGL.TRUE EGL.SUCCESS 0)
              eq_refl eq_refl eq_refl eq_refl eq_refl)
    as (w' & Hrun & Ha & Hs & Hsrc & _).
  exists w'. split; [exact Hrun|]. split; [exact Ha|].
  split; [rewrite Hs; reflexivity|exact Hsrc].
Defined.

(** X4 on the pbuffer surface with texture 5 bound. *)
Lemma releaseTexImageFromTexture_is_silent_witness :
  exists w1,
    releaseTexImageFromTexture bound_pbuffer = Done tt w1
    /\ alive w1 = true
    /\ sourced w1 = sourced bound_pbuffer
    /\ trace w1 = trace bound_pbuffer.
Proof.
  destruct (proj1 (proj2 (releaseTexImageFromTexture_is_silent 0%nat bound_pbuffer
                            eq_refl) 5%positive eq_refl))
    as (w1 & Hrun & Ha & _ & Hsrc & Htr).
  exists w1. split; [exact Hrun|]. split; [exact Ha|]. split; [exact Hsrc|exact Htr].
Defined.

(** X5 on a window surface: made current, destroyed, released. *)
Lemma balanced_destroyed_surface_is_freed_witness :
  exists w,
    run 0%nat [OpSetIsCurrent true; OpOnDestroy; OpSetIsCurrent false]
      (new_world window_surface) = Done tt w
    /\ alive w = false
    /\ teardowns w = 1%nat.
Proof.
  eexists. split; [vm_compute; reflexivity|].
  eapply (balanced_destroyed_surface_is_freed 0%nat window_surface
            [OpSetIsCurrent true; OpOnDestroy; OpSetIsCurrent false]).
  - reflexivity.
  - reflexivity.
  - vm_compute. reflexivity.
  - right. left. reflexivity.
  - reflexivity.
Defined.

(** X6 on a window surface that is current once, and on one that is not
    current. *)
Lemma onDestroy_twice_witness :
  (onDestroy 0%nat;; onDestroy 0%nat) (with_count 1 (new_world window_surface))
    = Done tt (with_destroyed (with_count 1 (new_world window_surface)))
  /\ exists w',
       onDestroy 0%nat (new_world window_surface) = Done tt w'
       /\ alive w' = false
       /\ (onDestroy 0%nat;; onDestroy 0%nat) (new_world window_surface)
          = Crash UseAfterFree w'.
Proof.
  split.
  - destruct (proj1 (onDestroy_twice 0%nat (with_count 1 (new_world window_surface))
                       eq_refl)) as [Htwice Honce].
    + simpl. discriminate.
    + rewrite Htwice. exact Honce.
  - exact (proj2 (onDestroy_twice 0%nat (new_world window_surface) eq_refl) eq_refl).
Defined.

(** X7 on a fresh window surface. *)
Lemma setIsCurrent_true_then_false_witness :
  (setIsCurrent 0%nat true;; setIsCurrent 0%nat false) (new_world window_surface)
  = Done tt (new_world window_surface).
Proof.
  assert (Hpos : 0 <= mCurrentCount (surface (new_world window_surface)))
    by (simpl; lia).
  apply (proj1 (setIsCurrent_true_then_false 0%nat (new_world window_surface)
                  eq_refl Hpos)).
  right. reflexivity.
Defined.



(** X10 on a sequence without lifetime calls that ends in a second
    bindTexImage, which faults. *)
Lemma only_lifetime_calls_tear_down_witness :
  alive (final (exec_all example_calls_kept (new_world window_surface))) = true
  /\ teardowns (final (exec_all example_calls_kept (new_world window_surface)))
     = 0%nat.
Proof.
  destruct (proj2 (only_lifetime_calls_tear_down example_calls_kept
                     (new_world window_surface) eq_refl) eq_refl)
    as (Ha & Ht & _).
  split; [exact Ha|exact Ht].
Defined.

(** X11: an attribute the constructor does not know makes no
    difference. *)
Lemma constructor_reads_only_its_keys_witness :
  Surface_ctor (I := MockSurfaceImpl) 64 EGL.PBUFFER_BIT example_config
    (<[0x3040 := 4]> fixed_800_600)
  = Surface_ctor 64 EGL.PBUFFER_BIT example_config fixed_800_600.
Proof.
  apply (constructor_reads_only_its_keys (I := MockSurfaceImpl) 64 EGL.PBUFFER_BIT
           example_config (<[0x3040 := 4]> fixed_800_600) fixed_800_600).
  intros k Hk. simpl in Hk.
  repeat (destruct Hk as [<- | Hk]; [vm_compute; reflexivity|]).
  destruct Hk.
Defined.

(** X12: width and height without EGL_FIXED_SIZE_ANGLE. *)
Lemma width_height_read_only_when_fixed_witness :
  Surface_ctor (I := MockSurfaceImpl) 64 EGL.WINDOW_BIT example_config
    (<[EGL.WIDTH := 800]> (<[EGL.HEIGHT := 600]> ∅))
  = Surface_ctor 64 EGL.WINDOW_BIT example_config
      (delete EGL.WIDTH (delete EGL.HEIGHT ∅)).
Proof.
  apply (width_height_read_only_when_fixed (I := MockSurfaceImpl) 64 EGL.WINDOW_BIT
           example_config ∅ 800 600).
  vm_compute. discriminate.
Defined.

(** X13: EGL_FIXED_SIZE_ANGLE alone. *)
Lemma fixed_size_without_dimensions_is_empty_witness :
  getAttachmentSize
    (Surface_ctor (I := MockSurfaceImpl) 64 EGL.WINDOW_BIT example_config
       (<[EGL.FIXED_SIZE_ANGLE := EGL.TRUE]> ∅))
  = Some (0, 0, 1).
Proof.
  apply (fixed_size_without_dimensions_is_empty (I := MockSurfaceImpl) 64
           EGL.WINDOW_BIT example_config (<[EGL.FIXED_SIZE_ANGLE := EGL.TRUE]> ∅));
    reflexivity.
Defined.

(** X14 on a pixmap surface. *)
Lemma uninitialized_surface_can_be_destroyed_witness :
  exists w',
    onDestroy 0%nat (new_world (PixmapSurface_ctor 64 example_config 9 ∅))
      = Done tt w'
    /\ alive w' = false
    /\ trace w' = [EvImplDestroy 0%nat; EvDeleteImplementation; EvSurfaceFreed].
Proof.
  apply (uninitialized_surface_can_be_destroyed (I := MockSurfaceImpl) 64 0%nat
           example_config ∅ 1 9 0 0 (PixmapSurface_ctor 64 example_config 9 ∅)).
  right. right. right. reflexivity.
Defined.


(** X16 with the byte-level coders. *)
Lemma encode_frames_consecutive_options_witness :
  decode (encode default_options (encode example_options [])) default_options
    = (true, example_options, encode default_options [])
  /\ decode (snd (decode (encode default_options (encode example_options []))
                    default_options)) default_options
     = (true, default_options, []).
Proof.
  exact (proj2 (encode_frames_consecutive_options ReferrerPolicy.t
                  Destination_coder_lawful Mode_coder_lawful
                  Credentials_coder_lawful Cache_coder_lawful
                  Redirect_coder_lawful ReferrerPolicy_coder_lawful
                  WTFString_coder_lawful bool_coder_lawful
                  example_options default_options default_options [])).
Defined.

(** X17 with the byte-level coders. *)
Lemma encode_is_injective_witness :
  example_options = example_options
  /\ [Byte.x00] = [Byte.x00].
Proof.
  exact (encode_is_injective ReferrerPolicy.t
           Destination_coder_lawful Mode_coder_lawful
           Credentials_coder_lawful Cache_coder_lawful
           Redirect_coder_lawful ReferrerPolicy_coder_lawful
           WTFString_coder_lawful bool_coder_lawful
           example_options example_options [Byte.x00] [Byte.x00] eq_refl).
Defined.

(** X18 with the byte-level coders: the same bytes decoded into two
    different options. *)
Lemma decode_overwrites_every_field_witness :
  snd (fst (decode (encode example_options []) default_options))
  = snd (fst (decode (encode example_options []) example_options)).
Proof.
  apply (decode_overwrites_every_field ReferrerPolicy.t
           (encode example_options []) default_options example_options).
  vm_compute. reflexivity.
Defined.
